(** * Recapify: the media processing pipeline

    A shallow embedding of the pipeline code of [main.py] (the Gradio
    front-end) and [streamlit_app.py] (the Streamlit front-end): audio
    normalisation through ffmpeg, transcription through whisper.cpp,
    summarisation through the streaming endpoint of an Ollama server, the
    handling of the temporary files in between, and the discovery of the
    models that the two front-ends offer.

    Python values are modelled as follows.
    - [str] is a list of Unicode code points, so that [len] and slicing
      count code points as Python 3 does; [bytes] is a list of octets.
    - The file system is a finite map from paths to file contents.
    - Functions with effects live in a state-and-exception monad over a
      [world] that holds the files and a log of the commands and HTTP
      requests issued; what ffmpeg, whisper-cli and the Ollama server answer
      is supplied by a [host]. *)

From Stdlib Require Import ZArith NArith List String Ascii Bool Lia.
From stdpp Require Import base option list gmap.

Set Default Proof Using "Type".

(** ** Strings *)

Abbreviation str := (list N).
Abbreviation bytes := (list N).

(** A literal of ASCII characters. *)
Definition lit (s : string) : str :=
  List.map N_of_ascii (list_ascii_of_string s).

Definition dquote : N := 34%N.
Definition nl : str := [10%N].

(** Literals of the sources that hold double quotes are written with
    apostrophes and passed through [qq]. *)
Definition qq (s : string) : str :=
  List.map (fun c => if N.eqb c 39 then dquote else c) (lit s).

Definition str_eqb (a b : str) : bool := bool_decide (a = b).

(** [hay.startswith(needle)] *)
Fixpoint startswith (hay needle : str) {struct needle} : bool :=
  match needle with
  | [] => true
  | c :: needle' =>
      match hay with
      | [] => false
      | d :: hay' => N.eqb c d && startswith hay' needle'
      end
  end.

(** [needle in hay] *)
Fixpoint str_in (needle hay : str) : bool :=
  startswith hay needle ||
  match hay with
  | [] => false
  | _ :: hay' => str_in needle hay'
  end.

(** [sub] occurs in [s] as a contiguous run of characters. *)
Definition contains (s sub : str) : Prop :=
  exists pre post, s = pre ++ sub ++ post.

(** ** os.path (posixpath) *)

Module os_path.

Definition sep : N := 47%N.
Definition extsep : N := 46%N.

(** [p.rfind(c)]: the index of the last [c] in [p], or -1. *)
Fixpoint rfind_from (c : N) (p : str) (i last : Z) : Z :=
  match p with
  | [] => last
  | x :: p' => rfind_from c p' (i + 1)%Z (if N.eqb x c then i else last)
  end.

Definition rfind (c : N) (p : str) : Z := rfind_from c p 0%Z (-1)%Z.

(** [p[:i]] and [p[i:]] for an index [0 <= i]. *)
Definition upto (i : Z) (p : str) : str := take (Z.to_nat i) p.
Definition from (i : Z) (p : str) : str := drop (Z.to_nat i) p.

(** The loop of [genericpath._splitext] that skips leading dots. *)
Fixpoint splitext_loop (fuel : nat) (p : str) (filenameIndex dotIndex : Z)
  : option (str * str) :=
  match fuel with
  | O => None
  | S fuel' =>
      if (filenameIndex <? dotIndex)%Z then
        if negb (str_eqb (upto 1 (from filenameIndex p)) [extsep])
        then Some (upto dotIndex p, from dotIndex p)
        else splitext_loop fuel' p (filenameIndex + 1)%Z dotIndex
      else None
  end.

Definition splitext (p : str) : str * str :=
  let sepIndex := rfind sep p in
  let dotIndex := rfind extsep p in
  if (sepIndex <? dotIndex)%Z then
    match splitext_loop (S (length p)) p (sepIndex + 1)%Z dotIndex with
    | Some r => r
    | None => (p, [])
    end
  else (p, []).

Definition basename (p : str) : str :=
  let i := (rfind sep p + 1)%Z in
  from i p.

End os_path.

(** ** Python values *)

(** A float is kept as the literal it was read from: not-a-number, an
    infinity, or the decimal [(-1)^negative * digits * 10^exp10], which
    stands for the binary64 number nearest to it. *)
Inductive pyfloat :=
| FNaN
| FInf (negative : bool)
| FDec (negative : bool) (digits : N) (exp10 : Z).

(** The values [json.loads] builds.  A dict is kept as the list of its
    items, with distinct keys. *)
#[warnings="-register-all"]
Inductive pyval :=
| PyNone
| PyBool (b : bool)
| PyInt (z : Z)
| PyFloat (f : pyfloat)
| PyStr (s : str)
| PyList (l : list pyval)
| PyDict (d : list (str * pyval)).

(** [float(x) != 0.0]: a decimal rounds to zero exactly when it is at most
    2^-1075, half of the least positive binary64 number. *)
Definition float_nonzero (f : pyfloat) : bool :=
  match f with
  | FNaN => true
  | FInf _ => true
  | FDec _ digits exp10 =>
      if N.eqb digits 0 then false
      else if (0 <=? exp10)%Z then true
      else (10 ^ (- exp10) <? Z.of_N digits * 2 ^ 1075)%Z
  end.

(** Truth value of an object, as [if x:] tests it. *)
Definition truthy (v : pyval) : bool :=
  match v with
  | PyNone => false
  | PyBool b => b
  | PyInt z => negb (z =? 0)%Z
  | PyFloat f => float_nonzero f
  | PyStr s => negb (str_eqb s [])
  | PyList l => match l with [] => false | _ => true end
  | PyDict d => match d with [] => false | _ => true end
  end.

(** [d[k] = v] *)
Fixpoint dict_set (k : str) (v : pyval) (d : list (str * pyval))
  : list (str * pyval) :=
  match d with
  | [] => [(k, v)]
  | (k', v') :: d' =>
      if str_eqb k k' then (k, v) :: d' else (k', v') :: dict_set k v d'
  end.

(** [d.get(k, default)] *)
Fixpoint dict_get (d : list (str * pyval)) (k : str) (default : pyval) : pyval :=
  match d with
  | [] => default
  | (k', v) :: d' => if str_eqb k k' then v else dict_get d' k default
  end.

(** ** bytes.decode("utf-8") *)

Definition cont (b : N) : bool := ((128 <=? b) && (b <=? 191))%N.
Definition low6 (b : N) : N := (b - 128)%N.

(** Strict UTF-8: no overlong forms, no surrogates, nothing above U+10FFFF.
    [None] stands for [UnicodeDecodeError]. *)
Fixpoint decode_utf8 (fuel : nat) (b : bytes) : option str :=
  match fuel with
  | O => None
  | S fuel' =>
      match b with
      | [] => Some []
      | b0 :: r0 =>
          if (b0 <=? 127)%N then cons b0 <$> decode_utf8 fuel' r0
          else if ((194 <=? b0) && (b0 <=? 223))%N then
            match r0 with
            | b1 :: r1 =>
                if cont b1
                then cons ((b0 - 192) * 64 + low6 b1)%N <$> decode_utf8 fuel' r1
                else None
            | _ => None
            end
          else if ((224 <=? b0) && (b0 <=? 239))%N then
            match r0 with
            | b1 :: b2 :: r2 =>
                let lo := if N.eqb b0 224 then 160%N else 128%N in
                let hi := if N.eqb b0 237 then 159%N else 191%N in
                if ((lo <=? b1) && (b1 <=? hi))%N && cont b2
                then cons (((b0 - 224) * 64 + low6 b1) * 64 + low6 b2)%N
                       <$> decode_utf8 fuel' r2
                else None
            | _ => None
            end
          else if ((240 <=? b0) && (b0 <=? 244))%N then
            match r0 with
            | b1 :: b2 :: b3 :: r3 =>
                let lo := if N.eqb b0 240 then 144%N else 128%N in
                let hi := if N.eqb b0 244 then 143%N else 191%N in
                if ((lo <=? b1) && (b1 <=? hi))%N && cont b2 && cont b3
                then cons ((((b0 - 240) * 64 + low6 b1) * 64 + low6 b2) * 64
                           + low6 b3)%N <$> decode_utf8 fuel' r3
                else None
            | _ => None
            end
          else None
      end
  end.

Definition bytes_decode (b : bytes) : option str := decode_utf8 (S (length b)) b.

(** ** json.loads

    The decoder of CPython's [json] package with its default settings
    ([strict] strings, [NaN] and the infinities accepted, plain [dict] and
    [list] results).  Every parser returns the value read and the rest of
    the input; [None] stands for [json.JSONDecodeError].  The interpreter's
    recursion limit and its optional cap on the digits of an integer literal
    are not part of the model. *)

Module json.

Definition is_ws (c : N) : bool :=
  N.eqb c 32 || N.eqb c 9 || N.eqb c 10 || N.eqb c 13.

Fixpoint skip_ws (s : str) : str :=
  match s with
  | c :: s' => if is_ws c then skip_ws s' else s
  | [] => []
  end.

Definition is_digit (c : N) : bool := ((48 <=? c) && (c <=? 57))%N.

Fixpoint span_digits (s : str) : str * str :=
  match s with
  | c :: s' =>
      if is_digit c then let (ds, r) := span_digits s' in (c :: ds, r)
      else ([], s)
  | [] => ([], [])
  end.

Definition digits_value (ds : str) : N :=
  fold_left (fun a c => (10 * a + (c - 48))%N) ds 0%N.

Definition hex_digit (c : N) : option N :=
  if ((48 <=? c) && (c <=? 57))%N then Some (c - 48)%N
  else if ((97 <=? c) && (c <=? 102))%N then Some (c - 87)%N
  else if ((65 <=? c) && (c <=? 70))%N then Some (c - 55)%N
  else None.

(** The four hexadecimal digits of a [\uXXXX] escape. *)
Definition hex4 (s : str) : option (N * str) :=
  match s with
  | a :: b :: c :: d :: r =>
      match hex_digit a, hex_digit b, hex_digit c, hex_digit d with
      | Some a', Some b', Some c', Some d' =>
          Some ((((a' * 16 + b') * 16 + c') * 16 + d')%N, r)
      | _, _, _, _ => None
      end
  | _ => None
  end.

Definition unescape (e : N) : option N :=
  if N.eqb e 34 then Some 34%N          (* quote *)
  else if N.eqb e 92 then Some 92%N     (* backslash *)
  else if N.eqb e 47 then Some 47%N     (* slash *)
  else if N.eqb e 98 then Some 8%N      (* b: backspace *)
  else if N.eqb e 102 then Some 12%N    (* f: form feed *)
  else if N.eqb e 110 then Some 10%N    (* n: line feed *)
  else if N.eqb e 114 then Some 13%N    (* r: carriage return *)
  else if N.eqb e 116 then Some 9%N     (* t: tab *)
  else None.

Definition high_surrogate (u : N) : bool := ((55296 <=? u) && (u <=? 56319))%N.
Definition low_surrogate (u : N) : bool := ((56320 <=? u) && (u <=? 57343))%N.
Definition join_surrogates (hi lo : N) : N :=
  (65536 + ((hi - 55296) * 1024 + (lo - 56320)))%N.

(** [rest] when [s] is [c] followed by [rest]. *)
Definition expect (c : N) (s : str) : option str :=
  match s with
  | d :: rest => if N.eqb d c then Some rest else None
  | [] => None
  end.

(** What [scanstring] finds next in a string literal: the closing quote, a
    character (plain or escaped), or something the literal may not hold. *)
Inductive scanned :=
| Closing (rest : str)
| Character (ch : N) (rest : str)
| Invalid.

Definition scan_char (s : str) : scanned :=
  match s with
  | [] => Invalid
  | c :: s' =>
      if N.eqb c 34 then Closing s'
      else if N.eqb c 92 then
        match s' with
        | [] => Invalid
        | e :: s'' =>
            if N.eqb e 117 then
              match hex4 s'' with
              | None => Invalid
              | Some (uni, r) =>
                  if high_surrogate uni then
                    match expect 92 r ≫= expect 117 with
                    | Some r2 =>
                        match hex4 r2 with
                        | None => Invalid
                        | Some (uni2, r3) =>
                            if low_surrogate uni2
                            then Character (join_surrogates uni uni2) r3
                            else Character uni r
                        end
                    | None => Character uni r
                    end
                  else Character uni r
              end
            else
              match unescape e with
              | Some ch => Character ch s''
              | None => Invalid
              end
        end
      else if (c <=? 31)%N then Invalid
      else Character c s'
  end.

(** [scanstring], entered after the opening quote. *)
Fixpoint scanstring (fuel : nat) (s acc : str) : option (str * str) :=
  match fuel with
  | O => None
  | S fuel' =>
      match scan_char s with
      | Closing rest => Some (acc, rest)
      | Character ch rest => scanstring fuel' rest (acc ++ [ch])
      | Invalid => None
      end
  end.

Definition parse_string (s : str) : option (str * str) :=
  scanstring (S (length s)) s [].

(** The parts of a number: an optional minus sign; a zero, or a digit from
    1 to 9 and any digits; optionally a dot and digits; optionally e or E, a
    sign and digits (without digits the exponent is not part of the
    number). *)
Definition minus_sign (s : str) : bool * str :=
  match expect 45 s with
  | Some rest => (true, rest)
  | None => (false, s)
  end.

Definition int_part (s : str) : option (str * str) :=
  match s with
  | [] => None
  | c :: rest =>
      if N.eqb c 48 then Some ([c], rest)
      else if is_digit c then
        let (ds, rest') := span_digits rest in Some (c :: ds, rest')
      else None
  end.

Definition frac_part (s : str) : str * str :=
  match s with
  | dot :: d :: rest =>
      if N.eqb dot 46 && is_digit d then span_digits (d :: rest) else ([], s)
  | _ => ([], s)
  end.

Definition exp_sign (s : str) : bool * str :=
  match s with
  | c :: rest =>
      if N.eqb c 43 then (false, rest)
      else if N.eqb c 45 then (true, rest)
      else (false, s)
  | [] => (false, s)
  end.

Definition exp_part (s : str) : option Z * str :=
  match s with
  | e :: rest =>
      if N.eqb e 101 || N.eqb e 69 then
        let (negative, rest') := exp_sign rest in
        let (ds, rest'') := span_digits rest' in
        match ds with
        | [] => (None, s)
        | _ =>
            let v := Z.of_N (digits_value ds) in
            (Some (if negative then (- v)%Z else v), rest'')
        end
      else (None, s)
  | [] => (None, s)
  end.

(** A number is an [int] when it has neither fraction nor exponent and a
    [float] otherwise. *)
Definition match_number (s : str) : option (pyval * str) :=
  let (negative, s1) := minus_sign s in
  match int_part s1 with
  | None => None
  | Some (int_digits, s2) =>
      let (frac_digits, s3) := frac_part s2 in
      let (exponent, s4) := exp_part s3 in
      match frac_digits, exponent with
      | [], None =>
          let v := Z.of_N (digits_value int_digits) in
          Some (PyInt (if negative then (- v)%Z else v), s4)
      | _, _ =>
          Some (PyFloat
                  (FDec negative (digits_value (int_digits ++ frac_digits))
                     (default 0%Z exponent - Z.of_nat (length frac_digits))%Z),
                s4)
      end
  end.

(** [scan_once] with the loops of [JSONObject] and [JSONArray]; each of
    the three is entered with less fuel than its caller. *)
Fixpoint scan_once (fuel : nat) (s : str) : option (pyval * str) :=
  match fuel with
  | O => None
  | S fuel' =>
      match s with
      | [] => None
      | c :: s' =>
          if N.eqb c 34 then
            match parse_string s' with
            | Some (v, rest) => Some (PyStr v, rest)
            | None => None
            end
          else if N.eqb c 123 then
            match expect 125 (skip_ws s') with
            | Some rest => Some (PyDict [], rest)
            | None => parse_object fuel' [] (skip_ws s')
            end
          else if N.eqb c 91 then
            match expect 93 (skip_ws s') with
            | Some rest => Some (PyList [], rest)
            | None => parse_array fuel' [] (skip_ws s')
            end
          else if startswith s (lit "null") then Some (PyNone, drop 4 s)
          else if startswith s (lit "true") then Some (PyBool true, drop 4 s)
          else if startswith s (lit "false") then Some (PyBool false, drop 5 s)
          else if startswith s (lit "NaN") then Some (PyFloat FNaN, drop 3 s)
          else if startswith s (lit "Infinity")
               then Some (PyFloat (FInf false), drop 8 s)
          else if startswith s (lit "-Infinity")
               then Some (PyFloat (FInf true), drop 9 s)
          else match_number s
      end
  end
with parse_object (fuel : nat) (d : list (str * pyval)) (s : str)
  : option (pyval * str) :=
  match fuel with
  | O => None
  | S fuel' =>
      match expect 34 s with
      | None => None
      | Some s1 =>
          match parse_string s1 with
          | None => None
          | Some (key, s2) =>
              match expect 58 (skip_ws s2) with
              | None => None
              | Some s3 =>
                  match scan_once fuel' (skip_ws s3) with
                  | None => None
                  | Some (value, s4) =>
                      let d' := dict_set key value d in
                      match expect 125 (skip_ws s4) with
                      | Some rest => Some (PyDict d', rest)
                      | None =>
                          match expect 44 (skip_ws s4) with
                          | Some s5 => parse_object fuel' d' (skip_ws s5)
                          | None => None
                          end
                      end
                  end
              end
          end
      end
  end
with parse_array (fuel : nat) (values : list pyval) (s : str)
  : option (pyval * str) :=
  match fuel with
  | O => None
  | S fuel' =>
      match scan_once fuel' s with
      | None => None
      | Some (value, s1) =>
          let values' := values ++ [value] in
          match expect 93 (skip_ws s1) with
          | Some rest => Some (PyList values', rest)
          | None =>
              match expect 44 (skip_ws s1) with
              | Some s2 => parse_array fuel' values' (skip_ws s2)
              | None => None
              end
          end
      end
  end.

(** [json.loads(s)] for a [str]: no byte-order mark, one value, and
    nothing but white space around it. *)
Definition loads (s : str) : option pyval :=
  if startswith s [65279%N] then None
  else
    match scan_once (2 * length s + 2) (skip_ws s) with
    | Some (obj, r) =>
        match skip_ws r with
        | [] => Some obj
        | _ => None
        end
    | None => None
    end.

End json.

(** ** The world, the host and the monad of effects *)

Inductive exn :=
| CalledProcessError (returncode : Z) (cmd : str)
| FileNotFoundError (path : str)
| UnicodeDecodeError
| JSONDecodeError
| AttributeError
| TypeError
| RequestException (e : str).

Inductive outcome (A : Type) :=
| Return (a : A)
| Raise (e : exn).
Arguments Return {A} a.
Arguments Raise {A} e.

(** What [requests.post(..., stream=True)] hands back: the status, the lines
    [iter_lines()] yields, the [RequestException] it raises once they are
    exhausted (if the transfer breaks), and what [response.text] evaluates
    to. *)
Record response := {
  status_code : Z;
  iter_lines : list bytes;
  stream_error : option str;
  text : str
}.

Inductive post_result :=
| Responded (r : response)
| Unreachable (e : str).

(** The external collaborators.
    - [ffmpeg input output]: the exit status of the transcoder and the
      contents it left at [output], if it wrote the file at all.
    - [whisper_cli model_file wav]: the exit status of the engine and what
      it printed on standard output.  A shell that does not find a binary
      exits with status 127.
    - [ollama_generate model prompt]: the answer to the POST on
      [/api/generate]. *)
Record host := {
  ffmpeg : str -> str -> Z * option str;
  whisper_cli : str -> str -> Z * str;
  ollama_generate : str -> str -> post_result
}.

Record world := {
  files : gmap str str;
  commands : list str;
  posts : list (str * str)
}.

Definition M (A : Type) : Type := world -> outcome A * world.

Definition ret {A} (a : A) : M A := fun w => (Return a, w).
Definition raise {A} (e : exn) : M A := fun w => (Raise e, w).

Definition bind {A B} (m : M A) (k : A -> M B) : M B :=
  fun w =>
    match m w with
    | (Return a, w') => k a w'
    | (Raise e, w') => (Raise e, w')
    end.

Declare Scope py_scope.
Delimit Scope py_scope with py.
Notation "x <- c1 ;; c2" := (bind c1 (fun x => c2))
  (at level 100, c1 at next level, right associativity) : py_scope.
Notation "c1 ;; c2" := (bind c1 (fun _ => c2))
  (at level 100, right associativity) : py_scope.
Local Open Scope py_scope.

(** [try: body except ...: handler]; [handler e] is [None] when no clause
    matches [e], which then propagates.  Effects of [body] stay. *)
Definition try_except {A} (body : M A) (handler : exn -> option (M A)) : M A :=
  fun w =>
    match body w with
    | (Return a, w') => (Return a, w')
    | (Raise e, w') =>
        match handler e with
        | Some h => h w'
        | None => (Raise e, w')
        end
    end.

Definition lift {A} (o : outcome A) : M A := fun w => (o, w).

Definition set_files (fs : gmap str str) (w : world) : world :=
  {| files := fs; commands := commands w; posts := posts w |}.

(** [open(path, "r").read()] *)
Definition read_file (path : str) : M str :=
  fun w =>
    match files w !! path with
    | Some s => (Return s, w)
    | None => (Raise (FileNotFoundError path), w)
    end.

(** [open(path, "w").write(s)] *)
Definition write_file (path s : str) : M unit :=
  fun w => (Return tt, set_files (<[path := s]> (files w)) w).

(** [os.remove(path)], also known as [os.unlink] *)
Definition os_remove (path : str) : M unit :=
  fun w =>
    match files w !! path with
    | Some _ => (Return tt, set_files (delete path (files w)) w)
    | None => (Raise (FileNotFoundError path), w)
    end.

Definition os_path_exists (path : str) : M bool :=
  fun w => (Return (bool_decide (is_Some (files w !! path))), w).

(** The world once [cmd] ran and left the files [fs]. *)
Definition ran (cmd : str) (fs : gmap str str) (w : world) : world :=
  {| files := fs; commands := commands w ++ [cmd]; posts := posts w |}.

(** [subprocess.run(cmd, shell=True, check=True)]: the command is recorded,
    has its [effect] on the files, and a non-zero exit status raises
    [CalledProcessError]. *)
Definition subprocess_run (cmd : str)
    (effect : gmap str str -> Z * gmap str str) : M unit :=
  fun w =>
    let (returncode, fs) := effect (files w) in
    if (returncode =? 0)%Z then (Return tt, ran cmd fs w)
    else (Raise (CalledProcessError returncode cmd), ran cmd fs w).

(** [ffmpeg -y -i input ... output] touches no file but [output]. *)
Definition ffmpeg_effect (h : host) (input output : str)
    (fs : gmap str str) : Z * gmap str str :=
  let (returncode, written) := ffmpeg h input output in
  (returncode, match written with
               | Some wav => <[output := wav]> fs
               | None => fs
               end).

(** [whisper-cli -m model_file -f wav > capture]: the shell creates or
    truncates [capture] before it starts the engine, whatever comes of it. *)
Definition whisper_effect (h : host) (model_file wav capture : str)
    (fs : gmap str str) : Z * gmap str str :=
  let (returncode, stdout) := whisper_cli h model_file wav in
  (returncode, <[capture := stdout]> fs).

(** The world once a request for [model] with [prompt] was sent. *)
Definition posted (model prompt : str) (w : world) : world :=
  {| files := files w; commands := commands w;
     posts := posts w ++ [(model, prompt)] |}.

(** [requests.post(url, json={"model": model, "prompt": prompt}, ...)]:
    a response, or a [RequestException] when the server cannot be reached. *)
Definition requests_post (h : host) (model prompt : str) : M response :=
  fun w =>
    match ollama_generate h model prompt with
    | Responded r => (Return r, posted model prompt w)
    | Unreachable e => (Raise (RequestException e), posted model prompt w)
    end.

(** ** Code shared by the two front-ends *)

(** [context if context else other] *)
Definition or_else (context other : str) : str :=
  match context with
  | [] => other
  | _ => context
  end.

(** The prompt, the same f-string in both files. *)
Definition prompt_of (context text : str) : str :=
  lit "You are given a transcript from a meeting, along with some optional context."
  ++ nl ++ lit "    "
  ++ nl ++ lit "    Context: "
  ++ or_else context (lit "No additional context provided.")
  ++ nl ++ lit "    "
  ++ nl ++ lit "    The transcript is as follows:"
  ++ nl ++ lit "    "
  ++ nl ++ lit "    " ++ text
  ++ nl ++ lit "    "
  ++ nl ++ lit "    Please summarize the transcript.".

(** The body of the loop over [response.iter_lines()] for a non-empty
    line: the new [full_response] and whether the loop breaks. *)
Definition frame_step (line : bytes) (full_response : str)
  : outcome (str * bool) :=
  match bytes_decode line with
  | None => Raise UnicodeDecodeError
  | Some decoded_line =>
      match json.loads decoded_line with
      | None => Raise JSONDecodeError
      | Some (PyDict json_line) =>
          match dict_get json_line (lit "response") (PyStr []) with
          | PyStr fragment =>
              Return (full_response ++ fragment,
                      truthy (dict_get json_line (lit "done") (PyBool false)))
          | _ => Raise TypeError
          end
      | Some _ => Raise AttributeError
      end
  end.

(** [for line in response.iter_lines(): if line: ...] followed by
    [return full_response]. *)
Fixpoint read_stream (lines : list bytes) (stream_error : option str)
    (full_response : str) : outcome str :=
  match lines with
  | [] =>
      match stream_error with
      | Some e => Raise (RequestException e)
      | None => Return full_response
      end
  | line :: lines' =>
      match line with
      | [] => read_stream lines' stream_error full_response
      | _ :: _ =>
          match frame_step line full_response with
          | Raise e => Raise e
          | Return (full_response', true) => Return full_response'
          | Return (full_response', false) =>
              read_stream lines' stream_error full_response'
          end
      end
  end.

Definition parse_failure_message (r : response) : str :=
  lit "Failed to parse the response from the server. Raw response: " ++ text r.

Definition cross_mark : str := [10060%N].
Definition memo : str := [128221%N].
Definition wrench : str := [128295%N].

Definition still_available : str :=
  nl ++ nl ++ lit "Transcript is still available for download below.".

Definition server_error_message (llm_model_name : str) (r : response) : str :=
  cross_mark ++ lit " Error: Failed to summarize with model " ++ llm_model_name
  ++ lit ". Server returned: " ++ text r ++ still_available.

Definition cannot_connect_message (e : str) : str :=
  cross_mark ++ lit " Error: Cannot connect to Ollama server: " ++ e
  ++ still_available.

(** The part of [summarize_with_model] from [try:] on, the same in both
    files but for a [print]. *)
Definition generate (h : host) (llm_model_name prompt : str) : M str :=
  try_except
    (response <- requests_post h llm_model_name prompt ;;
     if (status_code response =? 200)%Z then
       try_except
         (lift (read_stream (iter_lines response) (stream_error response) []))
         (fun e => match e with
                   | JSONDecodeError => Some (ret (parse_failure_message response))
                   | _ => None
                   end)
     else ret (server_error_message llm_model_name response))
    (fun e => match e with
              | RequestException e => Some (ret (cannot_connect_message e))
              | _ => None
              end).

Definition ellipsis (text : str) : str :=
  if (500 <? length text)%nat then lit "..." else [].

Definition converted_path (audio_file_path : str) : str :=
  fst (os_path.splitext audio_file_path) ++ lit "_converted.wav".

Definition ffmpeg_command (audio_file_path output_wav_file : str) : str :=
  qq "ffmpeg -y -i '" ++ audio_file_path ++ qq "' -ar 16000 -ac 1 '"
  ++ output_wav_file ++ qq "'".

Definition model_file (whisper_model_name : str) : str :=
  lit "./whisper.cpp/models/ggml-" ++ whisper_model_name ++ lit ".bin".

Definition whisper_command (whisper_model_name audio_file_wav output_file : str)
  : str :=
  lit "./whisper.cpp/build/bin/whisper-cli -m " ++ model_file whisper_model_name
  ++ qq " -f '" ++ audio_file_wav ++ qq "' > " ++ output_file.

(** ** main.py *)

Module Main.

Definition unavailable_message (context text : str) : str :=
  cross_mark ++ lit " Ollama Service Unavailable"
  ++ nl
  ++ nl ++ lit "This deployment cannot connect to an Ollama server for AI summarization."
  ++ nl
  ++ nl ++ memo ++ lit " **Raw Transcript Available**: You can still download the full transcript below."
  ++ nl
  ++ nl ++ wrench ++ lit " **To enable AI summarization**:"
  ++ nl ++ lit "1. Deploy your own Ollama server"
  ++ nl ++ lit "2. Set the OLLAMA_SERVER_URL environment variable"
  ++ nl ++ lit "3. Redeploy this application"
  ++ nl
  ++ nl ++ lit "**Context provided**: " ++ or_else context (lit "None")
  ++ nl
  ++ nl ++ lit "**Transcript preview** (first 500 characters):"
  ++ nl ++ take 500 text ++ ellipsis text.

Definition summarize_with_model (h : host) (llm_model_name context text : str)
  : M str :=
  if str_eqb llm_model_name (lit "ollama-not-available")
  then ret (unavailable_message context text)
  else generate h llm_model_name (prompt_of context text).

Definition preprocess_audio_file (h : host) (audio_file_path : str) : M str :=
  let output_wav_file := converted_path audio_file_path in
  let cmd := ffmpeg_command audio_file_path output_wav_file in
  subprocess_run cmd (ffmpeg_effect h audio_file_path output_wav_file) ;;
  ret output_wav_file.

Definition translate_and_summarize (h : host)
    (audio_file_path context whisper_model_name llm_model_name : str)
  : M (str * str) :=
  let output_file := lit "output.txt" in
  audio_file_wav <- preprocess_audio_file h audio_file_path ;;
  subprocess_run
    (whisper_command whisper_model_name audio_file_wav output_file)
    (whisper_effect h (model_file whisper_model_name) audio_file_wav
       output_file) ;;
  transcript <- read_file output_file ;;
  let transcript_file := lit "transcript.txt" in
  write_file transcript_file transcript ;;
  summary <- summarize_with_model h llm_model_name context transcript ;;
  os_remove audio_file_wav ;;
  os_remove output_file ;;
  ret (summary, transcript_file).

Definition gradio_app (h : host)
    (audio context whisper_model_name llm_model_name : str) : M (str * str) :=
  translate_and_summarize h audio context whisper_model_name llm_model_name.

End Main.

(** ** streamlit_app.py *)

Module Streamlit.

Definition unavailable_message (context text : str) : str :=
  cross_mark ++ lit " **Ollama Service Unavailable**"
  ++ nl
  ++ nl ++ lit "This deployment cannot connect to an Ollama server for AI summarization."
  ++ nl
  ++ nl ++ memo ++ lit " **Raw Transcript Available**: You can download the full transcript below."
  ++ nl
  ++ nl ++ wrench ++ lit " **To enable AI summarization**:"
  ++ nl ++ lit "1. Deploy your own Ollama server"
  ++ nl ++ lit "2. Set the OLLAMA_SERVER_URL environment variable"
  ++ nl ++ lit "3. Redeploy this application"
  ++ nl
  ++ nl ++ lit "**Context provided**: " ++ or_else context (lit "None")
  ++ nl
  ++ nl ++ lit "**Transcript preview** (first 500 characters):"
  ++ nl ++ take 500 text ++ ellipsis text.

Definition summarize_with_model (h : host) (llm_model_name context text : str)
  : M str :=
  if str_eqb llm_model_name (lit "ollama-not-available")
  then ret (unavailable_message context text)
  else generate h llm_model_name (prompt_of context text).

(** [None] is Python's [None]; the [st.error] banner is not modelled. *)
Definition preprocess_audio_file (h : host) (audio_file_path : str)
  : M (option str) :=
  let output_wav_file := converted_path audio_file_path in
  let cmd := ffmpeg_command audio_file_path output_wav_file in
  try_except
    (subprocess_run cmd (ffmpeg_effect h audio_file_path output_wav_file) ;;
     ret (Some output_wav_file))
    (fun e => match e with
              | CalledProcessError _ _ => Some (ret None)
              | _ => None
              end).

Definition whisper_unavailable_message
    (audio_file_path whisper_model_name : str) : str :=
  wrench ++ lit " **Whisper.cpp Not Available in This Deployment**"
  ++ nl
  ++ nl ++ lit "This Streamlit deployment doesn't have whisper.cpp compiled. "
  ++ nl
  ++ nl ++ lit "**To enable transcription:**"
  ++ nl ++ lit "1. Deploy with a custom Docker container that builds whisper.cpp"
  ++ nl ++ lit "2. Use OpenAI Whisper API instead"
  ++ nl ++ lit "3. Use a pre-built whisper service"
  ++ nl
  ++ nl ++ lit "**Audio file received:** " ++ os_path.basename audio_file_path
  ++ nl ++ lit "**Model requested:** " ++ whisper_model_name
  ++ nl
  ++ nl ++ lit "For a working demo, try the Railway deployment with Docker.".

Definition transcribe_audio (h : host) (audio_file_path whisper_model_name : str)
  : M (option str) :=
  let output_file := lit "output.txt" in
  audio_file_wav <- preprocess_audio_file h audio_file_path ;;
  match audio_file_wav with
  | None | Some [] => ret None
  | Some audio_file_wav =>
      try_except
        (try_except
           (subprocess_run
              (whisper_command whisper_model_name audio_file_wav output_file)
              (whisper_effect h (model_file whisper_model_name)
                 audio_file_wav output_file) ;;
            transcript <- read_file output_file ;;
            os_remove audio_file_wav ;;
            os_remove output_file ;;
            ret (Some transcript))
           (fun e =>
              match e with
              | CalledProcessError _ _ | FileNotFoundError _ =>
                  Some (ret (Some (whisper_unavailable_message audio_file_path
                                     whisper_model_name)))
              | _ => None
              end))
        (fun _ => Some (ret None))
  end.

(** What the results column shows in the end. *)
Inductive shown :=
| Results (summary transcript : str)
| TranscribeFailed
| Idle.

(** The body of [main] that deals with an upload.  The widgets are
    arguments: the uploaded bytes if any, the name
    [tempfile.NamedTemporaryFile] picked, whether the button was pressed,
    the two selected models and the context. *)
Definition main (h : host) (uploaded_file : option str) (tmp_file_path : str)
    (pressed : bool) (whisper_model llm_model context : str) : M shown :=
  match uploaded_file with
  | None => ret Idle
  | Some data =>
      write_file tmp_file_path data ;;
      if pressed then
        transcript <- transcribe_audio h tmp_file_path whisper_model ;;
        match transcript with
        | None | Some [] => ret TranscribeFailed
        | Some transcript =>
            let transcript_file := lit "transcript.txt" in
            write_file transcript_file transcript ;;
            summary <- summarize_with_model h llm_model context transcript ;;
            try_except
              (os_remove tmp_file_path ;;
               present <- os_path_exists transcript_file ;;
               if (present : bool) then os_remove transcript_file else ret tt)
              (fun _ => Some (ret tt)) ;;
            ret (Results summary transcript)
        end
      else ret Idle
  end.

End Streamlit.

(** ** The vocabulary of the properties *)

(** [s] is [head] followed by [tail]. *)
Definition splits (s head tail : str) : Prop := s = head ++ tail.

(** A line the loop goes past: a blank one, or a frame that is not
    terminal and brings [fragment]. *)
Definition passed (line : bytes) (fragment : str) : Prop :=
  line = [] /\ fragment = []
  \/ line <> [] /\ frame_step line [] = Return (fragment, false).

(** The shape of the reply when no server is available: some text that
    holds the context, then the first 500 characters of the transcript at
    most, then three dots if and only if the transcript is longer. *)
Definition preview_reply (context text reply : str) : Prop :=
  exists head tail,
    reply = head ++ take 500 text ++ tail
    /\ contains head context
    /\ (length (take 500 text) <= 500)%nat
    /\ ((500 < length text)%nat -> tail = lit "...")
    /\ ((length text <= 500)%nat -> tail = [] /\ take 500 text = text).

(** The line decodes and parses, to [v]. *)
Definition parses_to (line : bytes) (v : pyval) : Prop :=
  bytes_decode line ≫= json.loads = Some v.

(** [k in d] *)
Definition has_key (d : list (str * pyval)) (k : str) : bool :=
  existsb (fun item => str_eqb k (fst item)) d.

(** A line the loop can digest: blank, or a JSON object whose [response]
    member, if there is one, is a string. *)
Definition text_frame (line : bytes) : Prop :=
  line = []
  \/ exists d fragment,
       parses_to line (PyDict d)
       /\ dict_get d (lit "response") (PyStr []) = PyStr fragment.

(** The answer was 200 and the loop ended normally with nothing
    accumulated. *)
Definition silent (h : host) (model context transcript : str) : Prop :=
  model <> lit "ollama-not-available"
  /\ exists r,
       ollama_generate h model (prompt_of context transcript) = Responded r
       /\ status_code r = 200%Z
       /\ read_stream (iter_lines r) (stream_error r) [] = Return [].

(** The files once ffmpeg ran on [p] and wrote [written]. *)
Definition ffmpeg_files (p : str) (written : option str) (fs : gmap str str)
  : gmap str str :=
  match written with
  | Some wav => <[converted_path p := wav]> fs
  | None => fs
  end.

(** ** Hosts and inputs of the examples *)

Definition empty_world : world :=
  {| files := ∅; commands := []; posts := [] |}.

(** The three frames of the example stream. *)
Definition ab_frames : list bytes :=
  [ qq "{'response':'A','done':false}";
    qq "{'response':'B','done':true}";
    qq "{'response':'C','done':false}" ].

(** Both tools work and the server streams the three frames of
    [ab_frames]. *)
Definition host_chat : host :=
  {| ffmpeg := fun _ _ => (0%Z, Some (lit "RIFF"));
     whisper_cli := fun _ _ => (0%Z, lit "hello world");
     ollama_generate := fun _ _ =>
       Responded {| status_code := 200; iter_lines := ab_frames;
                    stream_error := None; text := [] |} |}.

Definition server_500 : response :=
  {| status_code := 500; iter_lines := []; stream_error := None;
     text := lit "model 'llama3' not found" |}.

Definition host_500 : host :=
  {| ffmpeg := fun _ _ => (0%Z, Some (lit "RIFF"));
     whisper_cli := fun _ _ => (0%Z, lit "hello world");
     ollama_generate := fun _ _ => Responded server_500 |}.




(** The server answers 200 and its only frame closes the stream with an
    empty fragment. *)
Definition silent_response : response :=
  {| status_code := 200;
     iter_lines := [qq "{'response':'','done':true}"];
     stream_error := None;
     text := [] |}.

Definition host_silent : host :=
  {| ffmpeg := fun _ _ => (0%Z, Some (lit "RIFF"));
     whisper_cli := fun _ _ => (0%Z, lit "hello world");
     ollama_generate := fun _ _ => Responded silent_response |}.

(** ffmpeg works; the shell does not find whisper-cli (status 127). *)
Definition host_no_engine : host :=
  {| ffmpeg := fun _ _ => (0%Z, Some (lit "RIFF"));
     whisper_cli := fun _ _ => (127%Z, []);
     ollama_generate := fun _ _ => Responded silent_response |}.

(** The shell does not find ffmpeg (status 127); nothing is written. *)
Definition host_no_ffmpeg : host :=
  {| ffmpeg := fun _ _ => (127%Z, None);
     whisper_cli := fun _ _ => (0%Z, lit "hello world");
     ollama_generate := fun _ _ => Responded silent_response |}.

(** ** Model discovery

    [get_available_models] and [get_available_whisper_models], which fill the
    two drop-down lists.  What the outside world answers is an argument: the
    outcome of the GET on [/api/tags], of [os.path.exists] and of
    [os.listdir] on the model directory. *)

(** [s.endswith(suffix)] *)
Definition endswith (s suffix : str) : bool :=
  startswith (rev s) (rev suffix).

(** [s.replace(old, "")] for a non-empty [old]: the occurrences of [old] are
    dropped from left to right, without overlap.  [skip] counts the
    characters of the current occurrence that are still to be dropped. *)
Fixpoint remove_from (old s : str) (skip : nat) : str :=
  match s with
  | [] => []
  | c :: s' =>
      match skip with
      | S k => remove_from old s' k
      | O =>
          if startswith s old then remove_from old s' (length old - 1)
          else c :: remove_from old s' 0
      end
  end.

Definition str_remove (s old : str) : str := remove_from old s 0.

Definition WHISPER_MODEL_DIR : str := lit "./whisper.cpp/models".

Definition valid_models : list str :=
  [lit "base"; lit "small"; lit "medium"; lit "large"; lit "large-V3"].

(** [f.endswith(".bin")], the filter on the directory listing. *)
Definition is_bin (f : str) : bool := endswith f (lit ".bin").

(** [any(valid_model in f for valid_model in valid_models) and "test" not in f] *)
Definition names_valid_model (f : str) : bool :=
  existsb (fun valid_model => str_in valid_model f) valid_models
  && negb (str_in (lit "test") f).

(** [os.path.splitext(f)[0].replace("ggml-", "")] *)
Definition model_name (f : str) : str :=
  str_remove (fst (os_path.splitext f)) (lit "ggml-").

(** The two comprehensions over the listing, before [set] drops the
    duplicates. *)
Definition whisper_models_of (listing : list str) : list str :=
  let model_files := List.filter is_bin listing in
  List.map model_name (List.filter names_valid_model model_files).

(** What [requests.get(url + "/api/tags")] hands back: the status, the
    outcome of [response.json()] (a value, or whatever it raises) and
    [response.text]. *)
Record tags_response := {
  tags_status_code : Z;
  tags_json : outcome pyval;
  tags_text : str
}.

Inductive get_result :=
| Answered (r : tags_response)
| NoAnswer (e : str).

(** What [get_available_models] can be left with: an exception of [exn], or
    a [KeyError]. *)
Inductive raised :=
| Exn (e : exn)
| KeyError (key : str).

Inductive result (A : Type) :=
| Value (a : A)
| Raised (e : raised).
Arguments Value {A} a.
Arguments Raised {A} e.

(** [v[key]] for a string [key]: only a dict can be subscripted with a
    string. *)
Definition subscript (v : pyval) (key : str) : result pyval :=
  match v with
  | PyDict d =>
      if has_key d key then Value (dict_get d key PyNone)
      else Raised (KeyError key)
  | _ => Raised (Exn TypeError)
  end.

(** [for x in v]: the elements of a list, the keys of a dict, the
    characters of a string; nothing else can be iterated. *)
Definition iterate (v : pyval) : result (list pyval) :=
  match v with
  | PyList l => Value l
  | PyDict d => Value (List.map (fun item => PyStr (fst item)) d)
  | PyStr s => Value (List.map (fun c => PyStr [c]) s)
  | _ => Raised (Exn TypeError)
  end.

(** [[model["model"] for model in models]], left at the first exception. *)
Fixpoint model_names (models : list pyval) : result (list pyval) :=
  match models with
  | [] => Value []
  | model :: models' =>
      match subscript model (lit "model") with
      | Raised e => Raised e
      | Value name =>
          match model_names models' with
          | Raised e => Raised e
          | Value names => Value (name :: names)
          end
      end
  end.

(** [get_available_models], the same in both files but for how the warning
    is shown ([print] or [st.warning], neither modelled). *)
Definition get_available_models (answer : get_result) : result (list pyval) :=
  match answer with
  | NoAnswer _ => Value [PyStr (lit "ollama-not-available")]
  | Answered response =>
      if (tags_status_code response =? 200)%Z then
        match tags_json response with
        | Raise (RequestException _) =>
            Value [PyStr (lit "ollama-not-available")]
        | Raise e => Raised (Exn e)
        | Return body =>
            match subscript body (lit "models") with
            | Raised e => Raised e
            | Value models =>
                match iterate models with
                | Raised e => Raised e
                | Value models => model_names models
                end
            end
        end
      else Value [PyStr (lit "ollama-not-available")]
  end.

Module MainDiscovery.

(** [listdir] is the outcome of [os.listdir(WHISPER_MODEL_DIR)].  The order
    of [list(set(...))] is not determined, so the result is kept as a set. *)
Definition get_available_whisper_models (listdir : outcome (list str))
  : outcome (gset str) :=
  match listdir with
  | Raise e => Raise e
  | Return listing => Return (list_to_set (whisper_models_of listing))
  end.

End MainDiscovery.

Module StreamlitDiscovery.

(** [exists] is [os.path.exists(WHISPER_MODEL_DIR)]; the bare [except:]
    takes whatever [os.listdir] raises. *)
Definition get_available_whisper_models (exists_dir : bool)
    (listdir : outcome (list str)) : gset str :=
  if exists_dir then
    match listdir with
    | Return listing =>
        match whisper_models_of listing with
        | [] => {[ lit "small" ]}
        | whisper_models => list_to_set whisper_models
        end
    | Raise _ => {[ lit "small" ]}
    end
  else {[ lit "small" ]}.

End StreamlitDiscovery.

(** ** More hosts for the examples *)

(** The server cannot be reached. *)
Definition host_down : host :=
  {| ffmpeg := fun _ _ => (0%Z, Some (lit "RIFF"));
     whisper_cli := fun _ _ => (0%Z, lit "hello world");
     ollama_generate := fun _ _ => Unreachable (lit "Connection refused") |}.

(** The transfer breaks after the first frame. *)
Definition cut_response : response :=
  {| status_code := 200;
     iter_lines := [qq "{'response':'A','done':false}"];
     stream_error := Some (lit "Connection broken");
     text := [] |}.

Definition host_cut : host :=
  {| ffmpeg := fun _ _ => (0%Z, Some (lit "RIFF"));
     whisper_cli := fun _ _ => (0%Z, lit "hello world");
     ollama_generate := fun _ _ => Responded cut_response |}.

(** The stream ends without a frame that has [done] set. *)
Definition open_response : response :=
  {| status_code := 200;
     iter_lines := [qq "{'response':'A','done':false}"; [];
                    qq "{'response':'B'}"];
     stream_error := None;
     text := [] |}.

Definition host_open : host :=
  {| ffmpeg := fun _ _ => (0%Z, Some (lit "RIFF"));
     whisper_cli := fun _ _ => (0%Z, lit "hello world");
     ollama_generate := fun _ _ => Responded open_response |}.

(** The second line is not UTF-8. *)
Definition garbled_response : response :=
  {| status_code := 200;
     iter_lines := [qq "{'response':'A','done':false}"; [255%N; 254%N]];
     stream_error := None;
     text := [] |}.

Definition host_garbled : host :=
  {| ffmpeg := fun _ _ => (0%Z, Some (lit "RIFF"));
     whisper_cli := fun _ _ => (0%Z, lit "hello world");
     ollama_generate := fun _ _ => Responded garbled_response |}.

(** The engine runs and prints nothing. *)
Definition host_mute : host :=
  {| ffmpeg := fun _ _ => (0%Z, Some (lit "RIFF"));
     whisper_cli := fun _ _ => (0%Z, []);
     ollama_generate := fun _ _ => Responded silent_response |}.

(** No engine, and a server that streams the three frames of [ab_frames]. *)
Definition host_no_engine_chat : host :=
  {| ffmpeg := fun _ _ => (0%Z, Some (lit "RIFF"));
     whisper_cli := fun _ _ => (127%Z, []);
     ollama_generate := ollama_generate host_chat |}.

(** The world once the upload was saved under [tmp] by [main] of
    [streamlit_app.py]. *)
Definition uploaded (tmp data : str) (w : world) : world :=
  set_files (<[tmp := data]> (files w)) w.

(** * Properties *)

(** ** The library functions on examples *)

Example splitext_mp3 :
  os_path.splitext (lit "/tmp/tmpab12.mp3") = (lit "/tmp/tmpab12", lit ".mp3").
Proof. vm_compute. reflexivity. Qed.

Example splitext_hidden :
  os_path.splitext (lit "dir.d/.bashrc") = (lit "dir.d/.bashrc", []).
Proof. vm_compute. reflexivity. Qed.

Example basename_mp3 :
  os_path.basename (lit "/tmp/tmpab12.mp3") = lit "tmpab12.mp3".
Proof. vm_compute. reflexivity. Qed.

Example decode_cross_mark :
  bytes_decode [226; 157; 140]%N = Some [10060%N].
Proof. vm_compute. reflexivity. Qed.

Example decode_overlong : bytes_decode [192; 128]%N = None.
Proof. vm_compute. reflexivity. Qed.

Example decode_truncated : bytes_decode [240; 159; 148]%N = None.
Proof. vm_compute. reflexivity. Qed.

Example loads_frame :
  json.loads (qq "{'response':'A','done':false}")
  = Some (PyDict [(lit "response", PyStr (lit "A")); (lit "done", PyBool false)]).
Proof. vm_compute. reflexivity. Qed.

Example loads_escape :
  bytes_decode (qq "{'response': 'x\nyé🔧', 'n': [1, -2.50e1, null]}")
    ≫= json.loads
  = Some (PyDict [(lit "response", PyStr [120; 10; 121; 233; 128295]%N);
                  (lit "n", PyList [PyInt 1; PyFloat (FDec true 250 (-1)); PyNone])]).
Proof. vm_compute. reflexivity. Qed.

Example loads_number : json.loads (lit "42") = Some (PyInt 42).
Proof. vm_compute. reflexivity. Qed.

Example loads_duplicate_key :
  json.loads (qq "{'a': 1, 'b': 2, 'a': 3}")
  = Some (PyDict [(lit "a", PyInt 3); (lit "b", PyInt 2)]).
Proof. vm_compute. reflexivity. Qed.

Example loads_trailing_comma : json.loads (qq "{'a': 1,}") = None.
Proof. vm_compute. reflexivity. Qed.

Example loads_extra_data : json.loads (lit "1 2") = None.
Proof. vm_compute. reflexivity. Qed.

Example loads_not_json : json.loads (lit "not json") = None.
Proof. vm_compute. reflexivity. Qed.


(** ** Strings and paths *)

Section strings.
Implicit Types s sub pre post : str.

Lemma contains_here sub post : contains (sub ++ post) sub.
Proof. exists [], post. reflexivity. Qed.

Lemma contains_later pre s sub : contains s sub -> contains (pre ++ s) sub.
Proof.
  intros (a & b & ->). exists (pre ++ a), b. by rewrite <- app_assoc.
Qed.

Lemma contains_end pre sub : contains (pre ++ sub) sub.
Proof. exists pre, []. by rewrite app_nil_r. Qed.

Lemma contains_empty s : contains s [].
Proof. exists [], s. reflexivity. Qed.

Lemma startswith_app sub post : startswith (sub ++ post) sub = true.
Proof.
  induction sub as [|c sub IH]; [done|]. simpl.
  by rewrite N.eqb_refl, IH.
Qed.

Lemma startswith_inv s sub :
  startswith s sub = true -> exists post, s = sub ++ post.
Proof.
  revert s. induction sub as [|c sub IH]; intros s H.
  - by exists s.
  - destruct s as [|d s]; [done|]. simpl in H.
    apply andb_true_iff in H as [Hc Hs]. apply N.eqb_eq in Hc as ->.
    destruct (IH _ Hs) as [post ->]. by exists post.
Qed.

(** The test [sub in s] decides [contains s sub]. *)
Lemma str_in_spec sub s : str_in sub s = true <-> contains s sub.
Proof.
  split.
  - induction s as [|c s IH]; simpl; intros H.
    + rewrite orb_false_r in H.
      destruct (startswith_inv _ _ H) as [post ->]. apply contains_here.
    + apply orb_true_iff in H as [H|H].
      * destruct (startswith_inv _ _ H) as [post ->]. apply contains_here.
      * apply (contains_later [c]). by apply IH.
  - intros (pre & post & ->).
    induction pre as [|c pre IH].
    + pose proof (startswith_app sub post) as H.
      simpl. destruct (sub ++ post); simpl; by rewrite H.
    + cbn [app str_in]. rewrite IH. apply orb_true_r.
Qed.
End strings.

Section paths.
Import os_path.

Lemma rfind_from_spec c p i last :
  rfind_from c p i last = last
  \/ (i <= rfind_from c p i last)%Z
     /\ p !! Z.to_nat (rfind_from c p i last - i) = Some c.
Proof.
  revert i last. induction p as [|x p IH]; intros i last; simpl.
  - by left.
  - destruct (IH (i + 1)%Z (if N.eqb x c then i else last)) as [H|[Hle Hat]].
    + rewrite H. destruct (N.eqb_spec x c) as [->|_]; [|by left].
      right. split; [lia|]. by rewrite Z.sub_diag.
    + right. split; [lia|].
      replace (Z.to_nat (rfind_from c p (i + 1) (if N.eqb x c then i else last) - i))
        with (S (Z.to_nat (rfind_from c p (i + 1) (if N.eqb x c then i else last)
                           - (i + 1)))) by lia.
      exact Hat.
Qed.

Lemma rfind_spec c p :
  rfind c p = (-1)%Z
  \/ (0 <= rfind c p)%Z /\ p !! Z.to_nat (rfind c p) = Some c.
Proof.
  unfold rfind. destruct (rfind_from_spec c p 0 (-1)) as [H|[H1 H2]]; [by left|].
  right. split; [done|]. by rewrite Z.sub_0_r in H2.
Qed.

Lemma splitext_loop_some fuel p i dot r :
  splitext_loop fuel p i dot = Some r -> r = (upto dot p, from dot p).
Proof.
  revert i. induction fuel as [|fuel IH]; intros i; simpl; [done|].
  destruct (i <? dot)%Z; [|done].
  destruct (negb _); [by intros [= <-]|]. apply IH.
Qed.

(** [splitext] cuts its argument in two, and the extension is empty or
    begins with a dot. *)
Lemma splitext_join p :
  p = fst (splitext p) ++ snd (splitext p)
  /\ (snd (splitext p) = [] \/ exists r, snd (splitext p) = extsep :: r).
Proof.
  unfold splitext.
  destruct (rfind sep p <? rfind extsep p)%Z eqn:Hlt;
    [|simpl; split; [by rewrite app_nil_r|by left]].
  destruct (splitext_loop _ _ _ _) as [r|] eqn:Hloop;
    [|simpl; split; [by rewrite app_nil_r|by left]].
  apply splitext_loop_some in Hloop as ->. simpl. unfold upto, from.
  split; [by rewrite take_drop|]. right.
  apply Z.ltb_lt in Hlt.
  destruct (rfind_spec extsep p) as [Hno|[_ Hat]].
  - destruct (rfind_spec sep p) as [Hs|[Hs _]]; lia.
  - exists (drop (S (Z.to_nat (rfind extsep p))) p).
    by apply drop_S.
Qed.

Lemma converted_path_length p :
  length (converted_path p) = (length (fst (splitext p)) + 14)%nat.
Proof. unfold converted_path. by rewrite length_app. Qed.

(** The normalised file never is the input file. *)
Lemma converted_path_fresh p : converted_path p <> p.
Proof.
  unfold converted_path. intros H.
  destruct (splitext_join p) as [Hp Hext].
  rewrite Hp in H at 2. apply app_inv_head in H.
  destruct Hext as [Hext|[r Hext]]; rewrite Hext in H; discriminate.
Qed.

Lemma converted_path_not_output p : converted_path p <> lit "output.txt".
Proof.
  intros H. apply (f_equal length) in H.
  rewrite converted_path_length in H.
  change (length (lit "output.txt")) with 10%nat in H. lia.
Qed.

Lemma converted_path_not_transcript p : converted_path p <> lit "transcript.txt".
Proof.
  intros H. pose proof (f_equal length H) as Hlen.
  rewrite converted_path_length in Hlen.
  change (length (lit "transcript.txt")) with 14%nat in Hlen.
  assert (fst (splitext p) = []) as Hroot
      by (destruct (fst (splitext p)); [done|simpl in Hlen; lia]).
  unfold converted_path in H. rewrite Hroot in H. discriminate.
Qed.

Lemma converted_path_nonempty p : converted_path p <> [].
Proof.
  intros H. apply (f_equal length) in H.
  rewrite converted_path_length in H. simpl in H. lia.
Qed.

Lemma output_not_transcript : lit "output.txt" <> lit "transcript.txt".
Proof. discriminate. Qed.
Lemma rfind_lt c p : (rfind c p < Z.of_nat (length p))%Z.
Proof.
  destruct (rfind_spec c p) as [->|[H0 Hat]]; [lia|].
  apply lookup_lt_Some in Hat. lia.
Qed.

Lemma splitext_loop_fuel f1 f2 p i dot :
  (dot - i < Z.of_nat f1)%Z -> (dot - i < Z.of_nat f2)%Z ->
  splitext_loop f1 p i dot = splitext_loop f2 p i dot.
Proof.
  revert f2 i. induction f1 as [|f1 IH]; intros [|f2] i H1 H2; cbn [splitext_loop];
    destruct (Z.ltb_spec i dot); try done; try lia.
  destruct (negb _); [done|]. apply IH; lia.
Qed.

(** The loop of [splitext] never runs out of fuel. *)
Lemma splitext_fuel p extra :
  splitext_loop (S (length p) + extra) p (rfind sep p + 1) (rfind extsep p)
  = splitext_loop (S (length p)) p (rfind sep p + 1) (rfind extsep p).
Proof.
  pose proof (rfind_lt extsep p).
  assert (-1 <= rfind sep p)%Z by (destruct (rfind_spec sep p) as [->|[? _]]; lia).
  apply splitext_loop_fuel; lia.
Qed.
End paths.

(** ** The decoders never run out of fuel *)

Section fuel.
Import json.

Lemma decode_utf8_fuel f1 f2 b :
  (length b < f1)%nat -> (length b < f2)%nat ->
  decode_utf8 f1 b = decode_utf8 f2 b.
Proof.
  revert f2 b. induction f1 as [|f1 IH]; intros f2 b H1 H2; [lia|].
  destruct f2 as [|f2]; [lia|]. cbn [decode_utf8].
  destruct b as [|b0 [|b1 [|b2 [|b3 r]]]]; cbn [length] in *;
    repeat (case_match; try done);
    f_equal; apply IH; cbn [length]; lia.
Qed.

Lemma expect_length c s rest :
  expect c s = Some rest -> length s = S (length rest).
Proof.
  destruct s as [|d s]; [done|]. simpl. destruct (N.eqb d c); [|done].
  by intros [= ->].
Qed.

Lemma skip_ws_length s : (length (skip_ws s) <= length s)%nat.
Proof.
  induction s as [|c s IH]; [done|]. simpl. destruct (is_ws c); simpl; lia.
Qed.

Lemma span_digits_length s :
  (length (snd (span_digits s)) <= length s)%nat.
Proof.
  induction s as [|c s IH]; [done|]. simpl. destruct (is_digit c); [|done].
  destruct (span_digits s). simpl in *. lia.
Qed.

Lemma hex4_length s u r : hex4 s = Some (u, r) -> length s = (4 + length r)%nat.
Proof.
  destruct s as [|a [|b [|c [|d s]]]]; try done. unfold hex4.
  destruct (hex_digit a), (hex_digit b), (hex_digit c), (hex_digit d); try done.
  by intros [= _ ->].
Qed.

Lemma scan_char_length s :
  match scan_char s with
  | Closing rest | Character _ rest => (length rest < length s)%nat
  | Invalid => True
  end.
Proof.
  destruct s as [|c s]; [done|]. unfold scan_char.
  destruct (N.eqb c 34); [simpl; lia|].
  destruct (N.eqb c 92); [|destruct (c <=? 31)%N; simpl; [done|lia]].
  destruct s as [|e s]; [done|].
  destruct (N.eqb e 117); [|destruct (unescape e); simpl; [lia|done]].
  destruct (hex4 s) as [[uni r]|] eqn:H1; [|done].
  apply hex4_length in H1.
  destruct (high_surrogate uni); [|simpl; lia].
  destruct (expect 92 r ≫= expect 117) as [r2|] eqn:H2; [|simpl; lia].
  destruct (expect 92 r) as [r1|] eqn:H3; [|done]. simpl in H2.
  apply expect_length in H2, H3.
  destruct (hex4 r2) as [[uni2 r3]|] eqn:H4; [|done].
  apply hex4_length in H4.
  destruct (low_surrogate uni2); simpl; lia.
Qed.

Lemma scanstring_fuel f1 f2 s acc :
  (length s < f1)%nat -> (length s < f2)%nat ->
  scanstring f1 s acc = scanstring f2 s acc.
Proof.
  revert f2 s acc. induction f1 as [|f1 IH]; intros f2 s acc H1 H2; [lia|].
  destruct f2 as [|f2]; [lia|]. cbn [scanstring].
  pose proof (scan_char_length s) as Hlen.
  destruct (scan_char s) as [rest|ch rest|]; [done| |done].
  apply IH; lia.
Qed.

Lemma scanstring_length f s acc v rest :
  scanstring f s acc = Some (v, rest) -> (length rest < length s)%nat.
Proof.
  revert s acc. induction f as [|f IH]; intros s acc; [done|]. cbn [scanstring].
  pose proof (scan_char_length s) as Hlen.
  destruct (scan_char s) as [r|ch r|]; [| |done].
  - by intros [= _ <-].
  - intros H. apply IH in H. lia.
Qed.

Lemma match_number_length s v rest :
  match_number s = Some (v, rest) -> (length rest < length s)%nat.
Proof.
  unfold match_number, minus_sign.
  assert (forall s1 ds s2, int_part s1 = Some (ds, s2) ->
                           (length s2 < length s1)%nat) as Hint.
  { intros [|c s1] ds s2; [done|]. unfold int_part.
    destruct (N.eqb c 48); [intros [= _ <-]; simpl; lia|].
    destruct (is_digit c); [|done].
    pose proof (span_digits_length s1) as Hs. destruct (span_digits s1).
    intros [= _ <-]. simpl in *. lia. }
  assert (forall s2, (length (snd (frac_part s2)) <= length s2)%nat) as Hfrac.
  { intros [|dot [|d s2]]; try done. unfold frac_part.
    destruct (_ && _); [|done].
    pose proof (span_digits_length (d :: s2)). simpl in *. lia. }
  assert (forall s3, (length (snd (exp_part s3)) <= length s3)%nat) as Hexp.
  { intros [|e s3]; [done|]. unfold exp_part.
    destruct (_ || _); [|done].
    assert (length (snd (exp_sign s3)) <= length s3)%nat as Hsg.
    { destruct s3 as [|c s3]; [done|]. unfold exp_sign.
      destruct (N.eqb c 43); [simpl; lia|]. destruct (N.eqb c 45); simpl; lia. }
    destruct (exp_sign s3) as [negative r1].
    pose proof (span_digits_length r1) as Hs. destruct (span_digits r1) as [ds r2].
    destruct ds; simpl in *; lia. }
  assert (exists s1, (if expect 45 s is Some r then (true, r) else (false, s)).2 = s1
                     /\ (length s1 <= length s)%nat) as (s1 & Hs1 & Hlen1).
  { destruct (expect 45 s) as [r|] eqn:He; eexists; (split; [done|]); simpl.
    - apply expect_length in He. lia.
    - lia. }
  destruct (match expect 45 s with Some r => (true, r) | None => (false, s) end)
    as [negative s1'].
  simpl in Hs1. subst s1'.
  destruct (int_part s1) as [[int_digits s2]|] eqn:Hi; [|done].
  apply Hint in Hi.
  pose proof (Hfrac s2) as Hf. destruct (frac_part s2) as [frac_digits s3].
  pose proof (Hexp s3) as He. destruct (exp_part s3) as [exponent s4].
  simpl in *.
  destruct frac_digits, exponent; intros [= _ <-]; lia.
Qed.

Lemma parse_string_length s v rest :
  parse_string s = Some (v, rest) -> (length rest < length s)%nat.
Proof. apply scanstring_length. Qed.

Lemma startswith_length s prefix :
  startswith s prefix = true -> (length prefix <= length s)%nat.
Proof.
  intros H. apply startswith_inv in H as [post ->]. rewrite length_app. lia.
Qed.

(** Each parser hands back less input than it was given. *)
Lemma scan_lengths f :
  (forall s v rest, scan_once f s = Some (v, rest) ->
                    (length rest < length s)%nat)
  /\ (forall d s v rest, parse_object f d s = Some (v, rest) ->
                         (length rest < length s)%nat)
  /\ (forall values s v rest, parse_array f values s = Some (v, rest) ->
                              (length rest < length s)%nat).
Proof.
  induction f as [|f (IHscan & IHobj & IHarr)]; [done|].
  split; [|split].
  - intros s v rest. cbn [scan_once]. destruct s as [|c s']; [done|].
    destruct (N.eqb c 34).
    { destruct (parse_string s') as [[v' r]|] eqn:Hs; [|done].
      apply parse_string_length in Hs. intros [= _ <-]. simpl. lia. }
    pose proof (skip_ws_length s') as Hws.
    destruct (N.eqb c 123).
    { destruct (expect 125 (skip_ws s')) as [r|] eqn:He.
      - apply expect_length in He. intros [= _ <-]. simpl. lia.
      - intros H. apply IHobj in H. simpl. lia. }
    destruct (N.eqb c 91).
    { destruct (expect 93 (skip_ws s')) as [r|] eqn:He.
      - apply expect_length in He. intros [= _ <-]. simpl. lia.
      - intros H. apply IHarr in H. simpl. lia. }
    repeat
      match goal with
      | |- context [startswith (c :: s') ?pre] =>
          let Hsw := fresh "Hsw" in
          destruct (startswith (c :: s') pre) eqn:Hsw;
          [apply startswith_length in Hsw;
           let n := eval vm_compute in (length pre) in
           change (length pre) with n in Hsw;
           intros [= _ <-]; rewrite length_drop; cbn [length] in *; lia|]
      end.
    apply match_number_length.
  - intros d s v rest. cbn [parse_object].
    destruct (expect 34 s) as [s1|] eqn:H1; [|done]. apply expect_length in H1.
    destruct (parse_string s1) as [[key s2]|] eqn:H2; [|done].
    apply parse_string_length in H2.
    pose proof (skip_ws_length s2) as Hw2.
    destruct (expect 58 (skip_ws s2)) as [s3|] eqn:H3; [|done].
    apply expect_length in H3.
    pose proof (skip_ws_length s3) as Hw3.
    destruct (scan_once f (skip_ws s3)) as [[value s4]|] eqn:H4; [|done].
    apply IHscan in H4.
    pose proof (skip_ws_length s4) as Hw4.
    destruct (expect 125 (skip_ws s4)) as [r|] eqn:H5.
    { apply expect_length in H5. intros [= _ <-]. lia. }
    destruct (expect 44 (skip_ws s4)) as [s5|] eqn:H6; [|done].
    apply expect_length in H6.
    pose proof (skip_ws_length s5) as Hw5.
    intros H. apply IHobj in H. lia.
  - intros values s v rest. cbn [parse_array].
    destruct (scan_once f s) as [[value s1]|] eqn:H1; [|done].
    apply IHscan in H1.
    pose proof (skip_ws_length s1) as Hw1.
    destruct (expect 93 (skip_ws s1)) as [r|] eqn:H2.
    { apply expect_length in H2. intros [= _ <-]. lia. }
    destruct (expect 44 (skip_ws s1)) as [s2|] eqn:H3; [|done].
    apply expect_length in H3.
    pose proof (skip_ws_length s2) as Hw2.
    intros H. apply IHarr in H. lia.
Qed.

(** Above twice the length of the input (and a little), the fuel does not
    matter. *)
Lemma scan_fuel f1 :
  (forall f2 s, (2 * length s + 2 <= f1)%nat -> (2 * length s + 2 <= f2)%nat ->
                scan_once f1 s = scan_once f2 s)
  /\ (forall f2 d s, (2 * length s + 3 <= f1)%nat -> (2 * length s + 3 <= f2)%nat ->
                     parse_object f1 d s = parse_object f2 d s)
  /\ (forall f2 values s,
        (2 * length s + 3 <= f1)%nat -> (2 * length s + 3 <= f2)%nat ->
        parse_array f1 values s = parse_array f2 values s).
Proof.
  induction f1 as [|f1 (IHscan & IHobj & IHarr)]; [repeat split; intros; lia|].
  split; [|split].
  - intros [|f2] s H1 H2; [lia|]. cbn [scan_once].
    destruct s as [|c s']; [done|]. cbn [length] in *.
    pose proof (skip_ws_length s') as Hws.
    rewrite (IHobj f2 [] (skip_ws s')) by lia.
    rewrite (IHarr f2 [] (skip_ws s')) by lia.
    done.
  - intros [|f2] d s H1 H2; [lia|]. cbn [parse_object].
    destruct (expect 34 s) as [s1|] eqn:E1; [|done]. apply expect_length in E1.
    destruct (parse_string s1) as [[key s2]|] eqn:E2; [|done].
    apply parse_string_length in E2.
    pose proof (skip_ws_length s2) as Hw2.
    destruct (expect 58 (skip_ws s2)) as [s3|] eqn:E3; [|done].
    apply expect_length in E3.
    pose proof (skip_ws_length s3) as Hw3.
    rewrite (IHscan f2 (skip_ws s3)) by lia.
    destruct (scan_once f2 (skip_ws s3)) as [[value s4]|] eqn:E4; [|done].
    apply scan_lengths in E4.
    pose proof (skip_ws_length s4) as Hw4.
    destruct (expect 125 (skip_ws s4)) as [r|]; [done|].
    destruct (expect 44 (skip_ws s4)) as [s5|] eqn:E6; [|done].
    apply expect_length in E6.
    pose proof (skip_ws_length s5) as Hw5.
    apply IHobj; lia.
  - intros [|f2] values s H1 H2; [lia|]. cbn [parse_array].
    rewrite (IHscan f2 s) by lia.
    destruct (scan_once f2 s) as [[value s1]|] eqn:E1; [|done].
    apply scan_lengths in E1.
    pose proof (skip_ws_length s1) as Hw1.
    destruct (expect 93 (skip_ws s1)) as [r|]; [done|].
    destruct (expect 44 (skip_ws s1)) as [s2|] eqn:E3; [|done].
    apply expect_length in E3.
    pose proof (skip_ws_length s2) as Hw2.
    apply IHarr; lia.
Qed.

(** [loads] gives [scan_once] all the fuel it can use: more changes
    nothing. *)
Lemma loads_fuel s extra :
  scan_once (2 * length s + 2 + extra) (skip_ws s)
  = scan_once (2 * length s + 2) (skip_ws s).
Proof.
  pose proof (skip_ws_length s).
  apply (proj1 (scan_fuel _)); lia.
Qed.

(** So does [bytes_decode]. *)
Lemma bytes_decode_fuel b extra :
  decode_utf8 (S (length b) + extra) b = bytes_decode b.
Proof. apply decode_utf8_fuel; lia. Qed.

Lemma parse_string_fuel s extra :
  scanstring (S (length s) + extra) s [] = parse_string s.
Proof. apply scanstring_fuel; lia. Qed.
End fuel.

(** ** The accumulation loop *)

Section stream.
Implicit Types (line : bytes) (lines : list bytes) (acc fragment : str).

(** What was accumulated before a line only is a prefix of what is
    accumulated after it. *)
Lemma frame_step_acc line acc :
  frame_step line acc =
  match frame_step line [] with
  | Return (fragment, done) => Return (acc ++ fragment, done)
  | Raise e => Raise e
  end.
Proof.
  unfold frame_step. destruct (bytes_decode line); [|done].
  destruct (json.loads _) as [[]|]; try done.
  by destruct (dict_get _ _ _).
Qed.

Lemma read_stream_blank lines se acc :
  read_stream ([] :: lines) se acc = read_stream lines se acc.
Proof. reflexivity. Qed.

Lemma read_stream_continue line lines se acc fragment :
  line <> [] -> frame_step line [] = Return (fragment, false) ->
  read_stream (line :: lines) se acc = read_stream lines se (acc ++ fragment).
Proof.
  intros Hne H. destruct line; [done|].
  cbn [read_stream]. by rewrite frame_step_acc, H.
Qed.

Lemma read_stream_done line lines se acc fragment :
  line <> [] -> frame_step line [] = Return (fragment, true) ->
  read_stream (line :: lines) se acc = Return (acc ++ fragment).
Proof.
  intros Hne H. destruct line; [done|].
  cbn [read_stream]. by rewrite frame_step_acc, H.
Qed.

Lemma read_stream_raise line lines se acc e :
  line <> [] -> frame_step line [] = Raise e ->
  read_stream (line :: lines) se acc = Raise e.
Proof.
  intros Hne H. destruct line; [done|].
  cbn [read_stream]. by rewrite frame_step_acc, H.
Qed.

Lemma read_stream_passed before fragments lines se acc :
  Forall2 passed before fragments ->
  read_stream (before ++ lines) se acc
  = read_stream lines se (acc ++ concat fragments).
Proof.
  intros H. revert acc.
  induction H as [|line fragment before fragments Hp _ IH]; intros acc.
  - by rewrite app_nil_r.
  - cbn [app concat]. destruct Hp as [[-> ->]|[Hne Hstep]].
    + by rewrite read_stream_blank, IH.
    + rewrite (read_stream_continue _ _ _ _ _ Hne Hstep), IH.
      by rewrite <- app_assoc.
Qed.

(** Whatever the loop returns extends what it started from. *)
Lemma read_stream_extends lines se acc s :
  read_stream lines se acc = Return s -> exists more, s = acc ++ more.
Proof.
  revert acc. induction lines as [|line lines IH]; intros acc; cbn [read_stream].
  - destruct se; [done|]. intros [= <-]. exists []. by rewrite app_nil_r.
  - destruct line as [|b line]; [apply IH|].
    rewrite frame_step_acc.
    destruct (frame_step (b :: line) []) as [[fragment [|]]|]; [| |done].
    + intros [= <-]. by exists fragment.
    + intros H. apply IH in H as [more ->].
      exists (fragment ++ more). by rewrite <- app_assoc.
Qed.
End stream.

(** ** Summarisation *)

Section summarize.
Context (h : host).

Lemma str_eqb_false (a b : str) : a <> b -> str_eqb a b = false.
Proof. apply bool_decide_eq_false_2. Qed.

(** [generate] spelled out: the request is logged, and the answer is read
    off the result of the POST. *)
Lemma generate_eq model prompt w :
  generate h model prompt w =
  (match ollama_generate h model prompt with
   | Unreachable e => Return (cannot_connect_message e)
   | Responded r =>
       if (status_code r =? 200)%Z then
         match read_stream (iter_lines r) (stream_error r) [] with
         | Return s => Return s
         | Raise JSONDecodeError => Return (parse_failure_message r)
         | Raise (RequestException e) => Return (cannot_connect_message e)
         | Raise e => Raise e
         end
       else Return (server_error_message model r)
   end, posted model prompt w).
Proof.
  unfold generate, try_except, bind, requests_post, lift, ret.
  destruct (ollama_generate h model prompt) as [r|e]; [|done].
  destruct (status_code r =? 200)%Z; [|done].
  by destruct (read_stream _ _ _) as [s|[]].
Qed.

Lemma main_summarize_generate model context text :
  model <> lit "ollama-not-available" ->
  Main.summarize_with_model h model context text
  = generate h model (prompt_of context text).
Proof.
  intros H. unfold Main.summarize_with_model. by rewrite str_eqb_false.
Qed.

Lemma streamlit_summarize_generate model context text :
  model <> lit "ollama-not-available" ->
  Streamlit.summarize_with_model h model context text
  = generate h model (prompt_of context text).
Proof.
  intros H. unfold Streamlit.summarize_with_model. by rewrite str_eqb_false.
Qed.
End summarize.

Ltac find_in_string :=
  repeat first [ apply contains_here | apply contains_end | apply contains_later ].

Lemma splits_here tail : splits tail [] tail.
Proof. reflexivity. Qed.

Lemma splits_later a s head tail : splits s head tail -> splits (a ++ s) (a ++ head) tail.
Proof. unfold splits. intros ->. by rewrite app_assoc. Qed.

Ltac split_string := repeat first [ apply splits_here | apply splits_later ].

Lemma preview_reply_intro context text head :
  contains head context ->
  preview_reply context text (head ++ take 500 text ++ ellipsis text).
Proof.
  intros Hc. exists head, (ellipsis text). split; [done|]. split; [done|].
  unfold ellipsis. split; [rewrite length_take; lia|].
  destruct (Nat.ltb_spec 500 (length text)); split; try done; try lia.
  intros _. split; [done|]. apply take_ge. lia.
Qed.

(** C4.  Called with the model identifier [ollama-not-available], both
    versions of [summarize_with_model] return at once and leave the world as
    it was (nothing is posted: no network I/O).  The reply holds the context
    as supplied, then a prefix of the transcript of at most 500 characters,
    then the ellipsis [...] exactly when the transcript has more than 500
    characters. *)
Theorem C4_sentinel_reply (h : host) (context text : str) (w : world) :
  (exists reply,
     Main.summarize_with_model h (lit "ollama-not-available") context text w
     = (Return reply, w)
     /\ preview_reply context text reply)
  /\ (exists reply,
        Streamlit.summarize_with_model h (lit "ollama-not-available") context text w
        = (Return reply, w)
        /\ preview_reply context text reply).
Proof.
  split.
  - exists (Main.unavailable_message context text). split; [reflexivity|].
    unfold Main.unavailable_message.
    match goal with
    | |- preview_reply _ _ ?m =>
        assert (exists head, splits m head (take 500 text ++ ellipsis text)
                             /\ contains head context) as (head & -> & Hc)
    end; [|by apply preview_reply_intro].
    eexists. split; [split_string|].
    destruct context as [|c context]; [apply contains_empty|].
    change (or_else (c :: context) (lit "None")) with (c :: context).
    find_in_string.
  - exists (Streamlit.unavailable_message context text). split; [reflexivity|].
    unfold Streamlit.unavailable_message.
    match goal with
    | |- preview_reply _ _ ?m =>
        assert (exists head, splits m head (take 500 text ++ ellipsis text)
                             /\ contains head context) as (head & -> & Hc)
    end; [|by apply preview_reply_intro].
    eexists. split; [split_string|].
    destruct context as [|c context]; [apply contains_empty|].
    change (or_else (c :: context) (lit "None")) with (c :: context).
    find_in_string.
Qed.

Example chat_summary :
  Main.summarize_with_model host_chat (lit "llama3") [] (lit "hello world")
    empty_world
  = (Return (lit "AB"),
     posted (lit "llama3") (prompt_of [] (lit "hello world")) empty_world).
Proof. vm_compute. reflexivity. Qed.

(** C5.  On the stream of the three frames with the fragments A, B and C,
    of which the second has [done] set, the accumulation loop returns
    exactly [AB]: the fragments are joined in the order of arrival, and
    whatever follows the frame with [done = true] (the third frame, any other
    lines, a broken transfer) is not looked at. *)
Theorem C5_accumulates_AB :
  read_stream ab_frames None [] = Return (lit "AB")
  /\ forall later stream_error,
       read_stream (take 2 ab_frames ++ later) stream_error [] = Return (lit "AB").
Proof.
  split; [|intros later se]; vm_compute; reflexivity.
Qed.

(** C9.  When the server answers with a status other than 200 (every
    non-success status is one), [summarize_with_model] does not raise: it
    returns the message that quotes the body of the answer as it is and ends
    with the note that the transcript can still be downloaded. *)
Theorem C9_server_error (h : host) (model context transcript : str) (w : world)
    (r : response) :
  model <> lit "ollama-not-available" ->
  ollama_generate h model (prompt_of context transcript) = Responded r ->
  status_code r <> 200%Z ->
  let reply := server_error_message model r in
  fst (Main.summarize_with_model h model context transcript w) = Return reply
  /\ fst (Streamlit.summarize_with_model h model context transcript w) = Return reply
  /\ contains reply (text r)
  /\ contains reply (lit "Transcript is still available for download below.").
Proof.
  intros Hm Hr Hs reply.
  rewrite main_summarize_generate, streamlit_summarize_generate by done.
  rewrite generate_eq, Hr.
  apply Z.eqb_neq in Hs. rewrite Hs. cbn [fst].
  split; [done|]. split; [done|].
  unfold reply, server_error_message, still_available.
  split; find_in_string.
Qed.

Lemma C9_server_error_witness :
  let reply := server_error_message (lit "llama3") server_500 in
  fst (Main.summarize_with_model host_500 (lit "llama3") [] (lit "hi") empty_world)
  = Return reply
  /\ fst (Streamlit.summarize_with_model host_500 (lit "llama3") [] (lit "hi")
            empty_world) = Return reply
  /\ contains reply (text server_500)
  /\ contains reply (lit "Transcript is still available for download below.").
Proof.
  apply (C9_server_error host_500 (lit "llama3") [] (lit "hi") empty_world
           server_500).
  - discriminate.
  - reflexivity.
  - discriminate.
Defined.

(** *** A line that is not JSON *)




(** *** Lines that are JSON *)

Lemma dict_get_missing d k default :
  has_key d k = false -> dict_get d k default = default.
Proof.
  induction d as [|[k' v] d IH]; [done|]. simpl.
  destruct (str_eqb k k'); [done|]. apply IH.
Qed.

Lemma frame_step_dict line d acc :
  parses_to line (PyDict d) ->
  frame_step line acc =
  match dict_get d (lit "response") (PyStr []) with
  | PyStr fragment =>
      Return (acc ++ fragment, truthy (dict_get d (lit "done") (PyBool false)))
  | _ => Raise TypeError
  end.
Proof.
  unfold parses_to, frame_step. destruct (bytes_decode line); [|done].
  simpl. by intros ->.
Qed.

(** C10, as stated, fails.  The line [42] is JSON, and so is the object
    whose [response] is a number; on the first the loop raises
    [AttributeError] (an [int] has no [get]), on the second [TypeError]. *)
Lemma C10_counterexample :
  parses_to (lit "42") (PyInt 42)
  /\ read_stream [lit "42"] None [] = Raise AttributeError
  /\ parses_to (qq "{'response': 1}") (PyDict [(lit "response", PyInt 1)])
  /\ read_stream [qq "{'response': 1}"] None [] = Raise TypeError.
Proof. repeat split; vm_compute; reflexivity. Qed.

(** C10, amended.  On lines that are blank or parse to JSON objects whose
    [response] member, when present, is a string, the loop ends with a result
    and raises nothing.  Blank lines are passed over unparsed; a frame without
    [response] adds nothing to what was accumulated; a frame without [done]
    does not end the loop. *)
Theorem C10_loop_total (lines : list bytes) (acc : str) :
  Forall text_frame lines ->
  (exists s, read_stream lines None acc = Return s)
  /\ (forall rest stream_error,
        read_stream ([] :: rest) stream_error acc
        = read_stream rest stream_error acc)
  /\ (forall line d,
        parses_to line (PyDict d) -> has_key d (lit "response") = false ->
        frame_step line acc
        = Return (acc, truthy (dict_get d (lit "done") (PyBool false))))
  /\ (forall line d fragment,
        parses_to line (PyDict d) ->
        dict_get d (lit "response") (PyStr []) = PyStr fragment ->
        has_key d (lit "done") = false ->
        frame_step line acc = Return (acc ++ fragment, false)).
Proof.
  intros Hlines. split; [|split; [|split]].
  - revert acc. induction Hlines as [|line lines Hline _ IH]; intros acc.
    + by exists acc.
    + destruct Hline as [->|(d & fragment & Hd & Hresp)]; [apply IH|].
      destruct line as [|b line]; [apply IH|].
      cbn [read_stream]. rewrite (frame_step_dict _ _ _ Hd), Hresp.
      destruct (truthy _); [by eexists|apply IH].
  - reflexivity.
  - intros line d Hd Hno.
    rewrite (frame_step_dict _ _ _ Hd), (dict_get_missing _ _ _ Hno).
    by rewrite app_nil_r.
  - intros line d fragment Hd Hresp Hno.
    by rewrite (frame_step_dict _ _ _ Hd), Hresp, (dict_get_missing _ _ _ Hno).
Qed.

Lemma C10_loop_total_witness :
  (exists s, read_stream [qq "{'done':false}"; []; qq "{'response':'A'}"] None []
             = Return s)
  /\ (forall rest stream_error,
        read_stream ([] :: rest) stream_error []
        = read_stream rest stream_error [])
  /\ (forall line d,
        parses_to line (PyDict d) -> has_key d (lit "response") = false ->
        frame_step line []
        = Return ([], truthy (dict_get d (lit "done") (PyBool false))))
  /\ (forall line d fragment,
        parses_to line (PyDict d) ->
        dict_get d (lit "response") (PyStr []) = PyStr fragment ->
        has_key d (lit "done") = false ->
        frame_step line [] = Return ([] ++ fragment, false)).
Proof.
  apply (C10_loop_total [qq "{'done':false}"; []; qq "{'response':'A'}"] []).
  constructor; [|constructor; [|constructor; [|constructor]]].
  - right. exists [(lit "done", PyBool false)], []. split; vm_compute; reflexivity.
  - by left.
  - right. exists [(lit "response", PyStr (lit "A"))], (lit "A").
    split; vm_compute; reflexivity.
Defined.

(** *** Empty summaries *)

(** C6, as stated, fails: with normalisation and transcription done and a
    server that answers 200 without any text, the pipeline of [main.py]
    returns the empty summary. *)
Lemma C6_counterexample :
  fst (Main.translate_and_summarize host_silent (lit "/tmp/a.mp3") []
         (lit "small") (lit "llama3") empty_world)
  = Return ([], lit "transcript.txt").
Proof. vm_compute. reflexivity. Qed.

Lemma str_eqb_refl (a : str) : str_eqb a a = true.
Proof. by apply bool_decide_eq_true_2. Qed.

Lemma generate_empty_iff (h : host) (model prompt : str) (w : world) :
  fst (generate h model prompt w) = Return []
  <-> exists r,
        ollama_generate h model prompt = Responded r
        /\ status_code r = 200%Z
        /\ read_stream (iter_lines r) (stream_error r) [] = Return [].
Proof.
  rewrite generate_eq. cbn [fst]. split.
  - destruct (ollama_generate h model prompt) as [r|e]; [|done].
    destruct (Z.eqb_spec (status_code r) 200) as [Hs|Hs]; [|done].
    destruct (read_stream _ _ _) as [s|[]] eqn:Hrs; try done.
    intros [= ->]. by exists r.
  - intros (r & -> & Hs & Hrs). by rewrite Hs, Hrs.
Qed.

(** C6, amended.  Whenever [summarize_with_model] returns, what it returns
    is non-empty, but for one case: the server answered 200 and the frames
    the loop consumed brought no text, and then the summary is the empty
    string.  The pipeline hands this string on as it is. *)
Theorem C6_summary_empty_iff_silent (h : host) (model context transcript : str)
    (w : world) (summarize : host -> str -> str -> str -> M str) (summary : str) :
  summarize = Main.summarize_with_model
  \/ summarize = Streamlit.summarize_with_model ->
  fst (summarize h model context transcript w) = Return summary ->
  summary = [] <-> silent h model context transcript.
Proof.
  intros Hsum Hret. unfold silent.
  destruct (decide (model = lit "ollama-not-available")) as [->|Hm].
  - assert (summary <> []) as Hne.
    { destruct Hsum as [-> | ->];
        [unfold Main.summarize_with_model in Hret
        |unfold Streamlit.summarize_with_model in Hret];
        rewrite str_eqb_refl in Hret; injection Hret as <-; discriminate. }
    split; [done|]. by intros [? _].
  - assert (fst (generate h model (prompt_of context transcript) w) = Return summary)
      as Hgen.
    { destruct Hsum as [-> | ->];
        [by rewrite main_summarize_generate in Hret
        |by rewrite streamlit_summarize_generate in Hret]. }
    split.
    + intros ->. split; [done|]. by apply generate_empty_iff in Hgen.
    + intros [_ Hsilent]. apply (generate_empty_iff h _ _ w) in Hsilent.
      congruence.
Qed.

Lemma C6_summary_empty_iff_silent_witness :
  ([] : str) = [] <-> silent host_silent (lit "llama3") [] (lit "hello world").
Proof.
  apply (C6_summary_empty_iff_silent host_silent (lit "llama3") []
           (lit "hello world") empty_world Main.summarize_with_model []).
  - by left.
  - vm_compute. reflexivity.
Defined.

(** ** The pipeline *)

Section pipeline.
Context (h : host).

Lemma generate_world model prompt w :
  snd (generate h model prompt w) = posted model prompt w.
Proof. by rewrite generate_eq. Qed.

(** Summarising touches neither the files nor the command log. *)
Lemma main_summarize_world model context transcript w :
  files (snd (Main.summarize_with_model h model context transcript w)) = files w
  /\ commands (snd (Main.summarize_with_model h model context transcript w))
     = commands w.
Proof.
  unfold Main.summarize_with_model. destruct (str_eqb _ _); [done|].
  by rewrite generate_world.
Qed.

Lemma streamlit_summarize_world model context transcript w :
  files (snd (Streamlit.summarize_with_model h model context transcript w)) = files w
  /\ commands (snd (Streamlit.summarize_with_model h model context transcript w))
     = commands w.
Proof.
  unfold Streamlit.summarize_with_model. destruct (str_eqb _ _); [done|].
  by rewrite generate_world.
Qed.

Lemma main_preprocess_eq p w returncode written :
  ffmpeg h p (converted_path p) = (returncode, written) ->
  Main.preprocess_audio_file h p w
  = (if (returncode =? 0)%Z then Return (converted_path p)
     else Raise (CalledProcessError returncode
                   (ffmpeg_command p (converted_path p))),
     ran (ffmpeg_command p (converted_path p))
       (ffmpeg_files p written (files w)) w).
Proof.
  intros H. unfold Main.preprocess_audio_file, bind, subprocess_run, ffmpeg_effect.
  rewrite H. by destruct (returncode =? 0)%Z.
Qed.

Lemma streamlit_preprocess_eq p w returncode written :
  ffmpeg h p (converted_path p) = (returncode, written) ->
  Streamlit.preprocess_audio_file h p w
  = (Return (if (returncode =? 0)%Z then Some (converted_path p) else None),
     ran (ffmpeg_command p (converted_path p))
       (ffmpeg_files p written (files w)) w).
Proof.
  intros H.
  unfold Streamlit.preprocess_audio_file, try_except, bind, subprocess_run,
    ffmpeg_effect.
  rewrite H. by destruct (returncode =? 0)%Z.
Qed.

Lemma whisper_run_eq model wav w returncode stdout :
  whisper_cli h (model_file model) wav = (returncode, stdout) ->
  subprocess_run (whisper_command model wav (lit "output.txt"))
    (whisper_effect h (model_file model) wav (lit "output.txt")) w
  = (if (returncode =? 0)%Z then Return tt
     else Raise (CalledProcessError returncode
                   (whisper_command model wav (lit "output.txt"))),
     ran (whisper_command model wav (lit "output.txt"))
       (<[lit "output.txt" := stdout]> (files w)) w).
Proof.
  intros H. unfold subprocess_run, whisper_effect.
  rewrite H. by destruct (returncode =? 0)%Z.
Qed.

(** [main.py] when the engine fails: the exception of [subprocess.run]
    leaves [translate_and_summarize] with both temporary files in place. *)
Lemma main_engine_failure p context wm lm w wav returncode stdout :
  ffmpeg h p (converted_path p) = (0%Z, Some wav) ->
  whisper_cli h (model_file wm) (converted_path p) = (returncode, stdout) ->
  returncode <> 0%Z ->
  Main.translate_and_summarize h p context wm lm w
  = (Raise (CalledProcessError returncode
              (whisper_command wm (converted_path p) (lit "output.txt"))),
     ran (whisper_command wm (converted_path p) (lit "output.txt"))
       (<[lit "output.txt" := stdout]> (<[converted_path p := wav]> (files w)))
       (ran (ffmpeg_command p (converted_path p))
          (<[converted_path p := wav]> (files w)) w)).
Proof.
  intros Hff Hwh Hcode. unfold Main.translate_and_summarize.
  unfold bind at 1. rewrite (main_preprocess_eq _ _ _ _ Hff). cbn [Z.eqb].
  unfold bind at 1. rewrite (whisper_run_eq _ _ _ _ _ Hwh).
  apply Z.eqb_neq in Hcode. by rewrite Hcode.
Qed.

(** [streamlit_app.py] when the engine fails: the placeholder is returned
    from the handler, which removes nothing. *)
Lemma streamlit_engine_failure p wm w written returncode stdout :
  ffmpeg h p (converted_path p) = (0%Z, written) ->
  whisper_cli h (model_file wm) (converted_path p) = (returncode, stdout) ->
  returncode <> 0%Z ->
  Streamlit.transcribe_audio h p wm w
  = (Return (Some (Streamlit.whisper_unavailable_message p wm)),
     ran (whisper_command wm (converted_path p) (lit "output.txt"))
       (<[lit "output.txt" := stdout]> (ffmpeg_files p written (files w)))
       (ran (ffmpeg_command p (converted_path p))
          (ffmpeg_files p written (files w)) w)).
Proof.
  intros Hff Hwh Hcode. unfold Streamlit.transcribe_audio.
  unfold bind at 1. rewrite (streamlit_preprocess_eq _ _ _ _ Hff). cbn [Z.eqb].
  destruct (converted_path p) as [|c wavp] eqn:Hwav;
    [by apply converted_path_nonempty in Hwav|].
  unfold try_except, bind. rewrite (whisper_run_eq _ _ _ _ _ Hwh).
  apply Z.eqb_neq in Hcode. by rewrite Hcode.
Qed.

End pipeline.

(** *** Temporary files *)

(** [main.py] when both tools succeed: the artifact holds the transcript
    when [translate_and_summarize] is left, by a return or by an exception
    of the summarisation; on a return the two temporary files are gone. *)
Lemma main_success_run h p context wm lm w wav stdout o after :
  ffmpeg h p (converted_path p) = (0%Z, Some wav) ->
  whisper_cli h (model_file wm) (converted_path p) = (0%Z, stdout) ->
  Main.translate_and_summarize h p context wm lm w = (o, after) ->
  files after !! lit "transcript.txt" = Some stdout
  /\ (forall result, o = Return result ->
        files after !! converted_path p = None
        /\ files after !! lit "output.txt" = None).
Proof.
  intros Hff Hwh Hrun. unfold Main.translate_and_summarize in Hrun.
  unfold bind at 1 in Hrun. rewrite (main_preprocess_eq _ _ _ _ _ Hff) in Hrun.
  cbn [Z.eqb] in Hrun.
  unfold bind at 1 in Hrun. rewrite (whisper_run_eq _ _ _ _ _ _ Hwh) in Hrun.
  cbn [Z.eqb] in Hrun.
  unfold bind at 1, read_file in Hrun. cbn [files ran ffmpeg_files] in Hrun.
  rewrite lookup_insert_eq in Hrun.
  unfold bind at 1, write_file in Hrun. cbn [files ran set_files] in Hrun.
  unfold bind at 1 in Hrun.
  pose proof (converted_path_not_output p) as Hwo.
  pose proof (converted_path_not_transcript p) as Hwt.
  pose proof output_not_transcript as Hot.
  match type of Hrun with
  | context [Main.summarize_with_model h lm context stdout ?W] =>
      pose proof (main_summarize_world h lm context stdout W) as [Hfiles _];
      destruct (Main.summarize_with_model h lm context stdout W) as [[summary|e] w4]
  end; cbn [snd files set_files] in Hfiles.
  - unfold bind, os_remove, ret in Hrun. rewrite Hfiles in Hrun.
    rewrite lookup_insert_ne, lookup_insert_ne, lookup_insert_eq in Hrun by done.
    cbn [files set_files] in Hrun.
    rewrite lookup_delete_ne, lookup_insert_ne, lookup_insert_eq in Hrun by done.
    injection Hrun as <- <-. cbn [files set_files].
    split.
    + by rewrite !lookup_delete_ne, lookup_insert_eq.
    + intros _ _. split.
      * by rewrite lookup_delete_ne, lookup_delete_eq.
      * by rewrite lookup_delete_eq.
  - injection Hrun as <- <-. rewrite Hfiles. split; [by rewrite lookup_insert_eq|].
    intros result [=].
Qed.

(** [streamlit_app.py] when both tools succeed: the transcript is returned
    and the two temporary files are gone. *)
Lemma streamlit_success_run h p wm w wav stdout :
  ffmpeg h p (converted_path p) = (0%Z, Some wav) ->
  whisper_cli h (model_file wm) (converted_path p) = (0%Z, stdout) ->
  let run := Streamlit.transcribe_audio h p wm w in
  fst run = Return (Some stdout)
  /\ files (snd run) !! converted_path p = None
  /\ files (snd run) !! lit "output.txt" = None.
Proof.
  intros Hff Hwh run. unfold run.
  destruct (Streamlit.transcribe_audio h p wm w) as [o after] eqn:Hrun.
  cbn [fst snd]. unfold Streamlit.transcribe_audio in Hrun.
  unfold bind at 1 in Hrun. rewrite (streamlit_preprocess_eq _ _ _ _ _ Hff) in Hrun.
  cbn [Z.eqb] in Hrun.
  pose proof (converted_path_nonempty p) as Hne.
  pose proof (converted_path_not_output p) as Hwo.
  pose proof (not_eq_sym Hwo) as How.
  unfold ffmpeg_files in Hrun.
  destruct (converted_path p) as [|c wavp] eqn:Hwav; [done|].
  unfold try_except, bind in Hrun.
  rewrite (whisper_run_eq _ _ _ _ _ _ Hwh) in Hrun. cbn [Z.eqb] in Hrun.
  unfold read_file, os_remove, ret in Hrun. cbn [files ran] in Hrun.
  rewrite lookup_insert_eq in Hrun. cbn [files ran] in Hrun.
  rewrite lookup_insert_ne, lookup_insert_eq in Hrun by done.
  unfold set_files in Hrun. cbn [files ran] in Hrun.
  rewrite lookup_delete_ne, lookup_insert_eq in Hrun by done.
  injection Hrun as <- <-. cbn [files].
  split; [done|]. split.
  - by rewrite lookup_delete_ne, lookup_delete_eq.
  - apply lookup_delete_eq.
Qed.

(** C1 does not hold of the code.  When normalisation succeeded and the
    transcription engine fails, both front-ends leave the invocation with the
    normalised audio file and the capture file [output.txt] still on disk:
    [translate_and_summarize] is left by the exception before its clean-up,
    and the handler of [transcribe_audio] returns the placeholder without the
    clean-up of the success path. *)
Theorem C1_engine_failure_leaves_temporaries (h : host)
    (audio_file_path context whisper_model llm_model : str) (w : world)
    (wav : str) (returncode : Z) (stdout : str) :
  ffmpeg h audio_file_path (converted_path audio_file_path) = (0%Z, Some wav) ->
  whisper_cli h (model_file whisper_model) (converted_path audio_file_path)
  = (returncode, stdout) ->
  returncode <> 0%Z ->
  let after_main :=
    snd (Main.translate_and_summarize h audio_file_path context whisper_model
           llm_model w) in
  let after_streamlit :=
    snd (Streamlit.transcribe_audio h audio_file_path whisper_model w) in
  files after_main !! converted_path audio_file_path = Some wav
  /\ files after_main !! lit "output.txt" = Some stdout
  /\ files after_streamlit !! converted_path audio_file_path = Some wav
  /\ files after_streamlit !! lit "output.txt" = Some stdout.
Proof.
  intros Hff Hwh Hcode after_main after_streamlit.
  unfold after_main, after_streamlit.
  rewrite (main_engine_failure _ _ _ _ _ _ _ _ _ Hff Hwh Hcode).
  rewrite (streamlit_engine_failure _ _ _ _ _ _ _ Hff Hwh Hcode).
  cbn [snd files ran ffmpeg_files].
  pose proof (converted_path_not_output audio_file_path) as Hne.
  rewrite lookup_insert_eq.
  rewrite lookup_insert_ne, lookup_insert_eq by done.
  done.
Qed.

Lemma C1_engine_failure_leaves_temporaries_witness :
  let after_main :=
    snd (Main.translate_and_summarize host_no_engine (lit "/tmp/a.mp3") []
           (lit "small") (lit "llama3") empty_world) in
  let after_streamlit :=
    snd (Streamlit.transcribe_audio host_no_engine (lit "/tmp/a.mp3")
           (lit "small") empty_world) in
  files after_main !! converted_path (lit "/tmp/a.mp3") = Some (lit "RIFF")
  /\ files after_main !! lit "output.txt" = Some []
  /\ files after_streamlit !! converted_path (lit "/tmp/a.mp3") = Some (lit "RIFF")
  /\ files after_streamlit !! lit "output.txt" = Some [].
Proof.
  apply (C1_engine_failure_leaves_temporaries host_no_engine (lit "/tmp/a.mp3")
           [] (lit "small") (lit "llama3") empty_world (lit "RIFF") 127 []).
  - reflexivity.
  - reflexivity.
  - discriminate.
Defined.

(** *** The placeholder transcript *)

(** C2, as stated, fails for [main.py]: with the engine binary absent,
    [translate_and_summarize] raises [CalledProcessError] to its caller. *)
Lemma C2_counterexample :
  fst (Main.translate_and_summarize host_no_engine (lit "/tmp/a.mp3") []
         (lit "small") (lit "llama3") empty_world)
  = Raise (CalledProcessError 127
             (whisper_command (lit "small") (lit "/tmp/a_converted.wav")
                (lit "output.txt"))).
Proof. vm_compute. reflexivity. Qed.

(** C2, amended.  When the transcription engine exits with a non-zero
    status (its binary or the model file is missing), [transcribe_audio] of
    [streamlit_app.py] does not raise: it returns the placeholder transcript,
    which holds the requested model identifier and the base name of the input
    audio file.  [translate_and_summarize] of [main.py] has no such fallback:
    there the [CalledProcessError] of the engine run reaches the caller. *)
Theorem C2_engine_failure_outcome (h : host)
    (audio_file_path context whisper_model llm_model : str) (w : world)
    (wav : str) (returncode : Z) (stdout : str) :
  ffmpeg h audio_file_path (converted_path audio_file_path) = (0%Z, Some wav) ->
  whisper_cli h (model_file whisper_model) (converted_path audio_file_path)
  = (returncode, stdout) ->
  returncode <> 0%Z ->
  let placeholder :=
    Streamlit.whisper_unavailable_message audio_file_path whisper_model in
  fst (Streamlit.transcribe_audio h audio_file_path whisper_model w)
  = Return (Some placeholder)
  /\ contains placeholder whisper_model
  /\ contains placeholder (os_path.basename audio_file_path)
  /\ fst (Main.translate_and_summarize h audio_file_path context whisper_model
            llm_model w)
     = Raise (CalledProcessError returncode
                (whisper_command whisper_model (converted_path audio_file_path)
                   (lit "output.txt"))).
Proof.
  intros Hff Hwh Hcode placeholder.
  rewrite (main_engine_failure _ _ _ _ _ _ _ _ _ Hff Hwh Hcode).
  rewrite (streamlit_engine_failure _ _ _ _ _ _ _ Hff Hwh Hcode).
  cbn [fst]. split; [done|].
  unfold placeholder, Streamlit.whisper_unavailable_message.
  split; [|split; [|done]]; find_in_string.
Qed.

Lemma C2_engine_failure_outcome_witness :
  let placeholder :=
    Streamlit.whisper_unavailable_message (lit "/tmp/a.mp3") (lit "small") in
  fst (Streamlit.transcribe_audio host_no_engine (lit "/tmp/a.mp3") (lit "small")
         empty_world)
  = Return (Some placeholder)
  /\ contains placeholder (lit "small")
  /\ contains placeholder (os_path.basename (lit "/tmp/a.mp3"))
  /\ fst (Main.translate_and_summarize host_no_engine (lit "/tmp/a.mp3") []
            (lit "small") (lit "llama3") empty_world)
     = Raise (CalledProcessError 127
                (whisper_command (lit "small") (converted_path (lit "/tmp/a.mp3"))
                   (lit "output.txt"))).
Proof.
  apply (C2_engine_failure_outcome host_no_engine (lit "/tmp/a.mp3") []
           (lit "small") (lit "llama3") empty_world (lit "RIFF") 127 []).
  - reflexivity.
  - reflexivity.
  - discriminate.
Defined.

(** *** Normalisation *)

(** C8, as stated, fails for [streamlit_app.py]: with ffmpeg absent,
    [preprocess_audio_file] raises nothing and returns [None], and so does
    [transcribe_audio]. *)
Lemma C8_counterexample :
  fst (Streamlit.preprocess_audio_file host_no_ffmpeg (lit "/tmp/a.mp3")
         empty_world) = Return None
  /\ fst (Streamlit.transcribe_audio host_no_ffmpeg (lit "/tmp/a.mp3")
            (lit "small") empty_world) = Return None.
Proof. split; vm_compute; reflexivity. Qed.

Lemma ffmpeg_files_other p written fs k :
  k <> converted_path p -> ffmpeg_files p written fs !! k = fs !! k.
Proof.
  intros Hk. destruct written; [|done]. simpl. by rewrite lookup_insert_ne.
Qed.

Lemma main_normalisation_failure h p context wm lm w returncode written :
  ffmpeg h p (converted_path p) = (returncode, written) ->
  returncode <> 0%Z ->
  Main.translate_and_summarize h p context wm lm w
  = (Raise (CalledProcessError returncode (ffmpeg_command p (converted_path p))),
     ran (ffmpeg_command p (converted_path p))
       (ffmpeg_files p written (files w)) w).
Proof.
  intros Hff Hcode. unfold Main.translate_and_summarize.
  unfold bind at 1. rewrite (main_preprocess_eq _ _ _ _ _ Hff).
  apply Z.eqb_neq in Hcode. by rewrite Hcode.
Qed.

Lemma streamlit_normalisation_failure h p wm w returncode written :
  ffmpeg h p (converted_path p) = (returncode, written) ->
  returncode <> 0%Z ->
  Streamlit.transcribe_audio h p wm w
  = (Return None,
     ran (ffmpeg_command p (converted_path p))
       (ffmpeg_files p written (files w)) w).
Proof.
  intros Hff Hcode. unfold Streamlit.transcribe_audio.
  unfold bind at 1. rewrite (streamlit_preprocess_eq _ _ _ _ _ Hff).
  apply Z.eqb_neq in Hcode. by rewrite Hcode.
Qed.

(** C8, amended.  When ffmpeg exits with a non-zero status (127 when the
    shell does not find it), normalisation fails and no transcription is
    attempted: the only command run is the ffmpeg one.  In [main.py] the
    failure is the [CalledProcessError] raised by [preprocess_audio_file],
    which goes through [translate_and_summarize] to the caller; in
    [streamlit_app.py] it is caught inside [preprocess_audio_file], which
    returns [None], and [transcribe_audio] returns [None] in turn.  On
    success both return the derived path, the input path with its extension
    replaced by [_converted.wav].  In either case the input file is left as
    it was. *)
Theorem C8_normalisation (h : host)
    (audio_file_path context whisper_model llm_model : str) (w : world)
    (returncode : Z) (written : option str) :
  ffmpeg h audio_file_path (converted_path audio_file_path)
  = (returncode, written) ->
  let cmd := ffmpeg_command audio_file_path (converted_path audio_file_path) in
  let main_call :=
    Main.translate_and_summarize h audio_file_path context whisper_model
      llm_model w in
  let streamlit_call :=
    Streamlit.transcribe_audio h audio_file_path whisper_model w in
  (returncode <> 0%Z ->
     fst (Main.preprocess_audio_file h audio_file_path w)
     = Raise (CalledProcessError returncode cmd)
     /\ fst main_call = Raise (CalledProcessError returncode cmd)
     /\ commands (snd main_call) = commands w ++ [cmd]
     /\ fst (Streamlit.preprocess_audio_file h audio_file_path w) = Return None
     /\ fst streamlit_call = Return None
     /\ commands (snd streamlit_call) = commands w ++ [cmd])
  /\ (returncode = 0%Z ->
        fst (Main.preprocess_audio_file h audio_file_path w)
        = Return (converted_path audio_file_path)
        /\ fst (Streamlit.preprocess_audio_file h audio_file_path w)
           = Return (Some (converted_path audio_file_path)))
  /\ converted_path audio_file_path
     = fst (os_path.splitext audio_file_path) ++ lit "_converted.wav"
  /\ audio_file_path
     = fst (os_path.splitext audio_file_path)
       ++ snd (os_path.splitext audio_file_path)
  /\ files (snd (Main.preprocess_audio_file h audio_file_path w)) !! audio_file_path
     = files w !! audio_file_path
  /\ files (snd (Streamlit.preprocess_audio_file h audio_file_path w))
       !! audio_file_path
     = files w !! audio_file_path.
Proof.
  intros Hff cmd main_call streamlit_call.
  unfold main_call, streamlit_call.
  rewrite (main_preprocess_eq _ _ _ _ _ Hff),
    (streamlit_preprocess_eq _ _ _ _ _ Hff).
  cbn [fst snd files ran].
  split; [|split; [|split; [|split; [|split]]]].
  - intros Hcode.
    rewrite (main_normalisation_failure _ _ _ _ _ _ _ _ Hff Hcode),
      (streamlit_normalisation_failure _ _ _ _ _ _ Hff Hcode).
    apply Z.eqb_neq in Hcode. by rewrite Hcode.
  - intros ->. done.
  - done.
  - apply splitext_join.
  - apply ffmpeg_files_other. apply not_eq_sym, converted_path_fresh.
  - apply ffmpeg_files_other. apply not_eq_sym, converted_path_fresh.
Qed.

Lemma C8_normalisation_witness :
  let p := lit "/tmp/a.mp3" in
  let w := empty_world in
  let cmd := ffmpeg_command p (converted_path p) in
  let main_call :=
    Main.translate_and_summarize host_no_ffmpeg p [] (lit "small") (lit "llama3") w in
  let streamlit_call := Streamlit.transcribe_audio host_no_ffmpeg p (lit "small") w in
  (127%Z <> 0%Z ->
     fst (Main.preprocess_audio_file host_no_ffmpeg p w)
     = Raise (CalledProcessError 127 cmd)
     /\ fst main_call = Raise (CalledProcessError 127 cmd)
     /\ commands (snd main_call) = commands w ++ [cmd]
     /\ fst (Streamlit.preprocess_audio_file host_no_ffmpeg p w) = Return None
     /\ fst streamlit_call = Return None
     /\ commands (snd streamlit_call) = commands w ++ [cmd])
  /\ (127%Z = 0%Z ->
        fst (Main.preprocess_audio_file host_no_ffmpeg p w)
        = Return (converted_path p)
        /\ fst (Streamlit.preprocess_audio_file host_no_ffmpeg p w)
           = Return (Some (converted_path p)))
  /\ converted_path p = fst (os_path.splitext p) ++ lit "_converted.wav"
  /\ p = fst (os_path.splitext p) ++ snd (os_path.splitext p)
  /\ files (snd (Main.preprocess_audio_file host_no_ffmpeg p w)) !! p
     = files w !! p
  /\ files (snd (Streamlit.preprocess_audio_file host_no_ffmpeg p w)) !! p
     = files w !! p.
Proof.
  apply (C8_normalisation host_no_ffmpeg (lit "/tmp/a.mp3") [] (lit "small")
           (lit "llama3") empty_world 127 None).
  reflexivity.
Defined.

(** *** The transcript artifact *)

(** [transcribe_audio] touches no file but the two temporary ones. *)
Lemma streamlit_transcribe_other h p wm w k :
  k <> converted_path p -> k <> lit "output.txt" ->
  files (snd (Streamlit.transcribe_audio h p wm w)) !! k = files w !! k.
Proof.
  intros Hkw Hko.
  destruct (Streamlit.transcribe_audio h p wm w) as [o after] eqn:Hrun.
  cbn [snd]. unfold Streamlit.transcribe_audio in Hrun.
  destruct (ffmpeg h p (converted_path p)) as [code written] eqn:Hff.
  unfold bind at 1 in Hrun. rewrite (streamlit_preprocess_eq _ _ _ _ _ Hff) in Hrun.
  assert (forall cmd, files (ran cmd (ffmpeg_files p written (files w)) w) !! k
                      = files w !! k) as Hbase
      by (intros cmd; by apply ffmpeg_files_other).
  destruct (code =? 0)%Z; [|injection Hrun as <- <-; apply Hbase].
  pose proof (converted_path_nonempty p) as Hne.
  pose proof (converted_path_not_output p) as Hwo.
  pose proof (not_eq_sym Hwo) as How.
  destruct (converted_path p) as [|c wavp] eqn:Hwav; [done|].
  destruct (whisper_cli h (model_file wm) (c :: wavp)) as [code2 stdout] eqn:Hwh.
  unfold try_except, bind in Hrun.
  rewrite (whisper_run_eq _ _ _ _ _ _ Hwh) in Hrun.
  destruct (code2 =? 0)%Z.
  - unfold read_file, os_remove, ret in Hrun. cbn [files ran set_files] in Hrun.
    rewrite lookup_insert_eq in Hrun. cbn [files ran set_files] in Hrun.
    rewrite lookup_insert_ne in Hrun by done.
    destruct (ffmpeg_files p written (files w) !! (c :: wavp)) eqn:Hw.
    + cbn [files ran set_files] in Hrun.
      rewrite lookup_delete_ne, lookup_insert_eq in Hrun by done.
      injection Hrun as <- <-. cbn [files set_files].
      rewrite !lookup_delete_ne, lookup_insert_ne by done. apply (Hbase []).
    + injection Hrun as <- <-. cbn [files ran].
      rewrite lookup_insert_ne by done. apply (Hbase []).
  - unfold ret in Hrun. injection Hrun as <- <-. cbn [files ran].
    rewrite lookup_insert_ne by done. apply (Hbase []).
Qed.





(** * Further properties *)

(** ** Summarisation: the request and the failures of the transfer *)

(** The outcome of a summarisation does not depend on the world it starts
    from. *)
Lemma generate_outcome h model prompt w1 w2 :
  fst (generate h model prompt w1) = fst (generate h model prompt w2).
Proof. by rewrite !generate_eq. Qed.

Lemma main_summarize_outcome h model context transcript w1 w2 :
  fst (Main.summarize_with_model h model context transcript w1)
  = fst (Main.summarize_with_model h model context transcript w2).
Proof.
  unfold Main.summarize_with_model. destruct (str_eqb _ _); [done|].
  apply generate_outcome.
Qed.

Lemma streamlit_summarize_outcome h model context transcript w1 w2 :
  fst (Streamlit.summarize_with_model h model context transcript w1)
  = fst (Streamlit.summarize_with_model h model context transcript w2).
Proof.
  unfold Streamlit.summarize_with_model. destruct (str_eqb _ _); [done|].
  apply generate_outcome.
Qed.

(** The two versions of [summarize_with_model] agree on every model that is
    not the sentinel. *)
Lemma summarize_agree h model context transcript w :
  model <> lit "ollama-not-available" ->
  Streamlit.summarize_with_model h model context transcript w
  = Main.summarize_with_model h model context transcript w.
Proof.
  intros H. by rewrite main_summarize_generate, streamlit_summarize_generate.
Qed.

(** X1.  When the server cannot be reached (the POST raises a
    [RequestException] with the cause [e]), [summarize_with_model] does not
    raise: it returns the message that names the cause and ends with the note
    that the transcript can still be downloaded.  The request was attempted
    once. *)
Theorem X1_unreachable_reply (h : host) (model context transcript : str)
    (w : world) (e : str) :
  model <> lit "ollama-not-available" ->
  ollama_generate h model (prompt_of context transcript) = Unreachable e ->
  let reply := cannot_connect_message e in
  Main.summarize_with_model h model context transcript w
  = (Return reply, posted model (prompt_of context transcript) w)
  /\ Streamlit.summarize_with_model h model context transcript w
     = (Return reply, posted model (prompt_of context transcript) w)
  /\ contains reply e
  /\ contains reply (lit "Transcript is still available for download below.").
Proof.
  intros Hm Hgen reply.
  rewrite main_summarize_generate, streamlit_summarize_generate by done.
  rewrite generate_eq, Hgen.
  split; [done|]. split; [done|].
  unfold reply, cannot_connect_message, still_available.
  split; find_in_string.
Qed.

Lemma X1_unreachable_reply_witness :
  let reply := cannot_connect_message (lit "Connection refused") in
  let prompt := prompt_of [] (lit "hi") in
  Main.summarize_with_model host_down (lit "llama3") [] (lit "hi") empty_world
  = (Return reply, posted (lit "llama3") prompt empty_world)
  /\ Streamlit.summarize_with_model host_down (lit "llama3") [] (lit "hi")
       empty_world
     = (Return reply, posted (lit "llama3") prompt empty_world)
  /\ contains reply (lit "Connection refused")
  /\ contains reply (lit "Transcript is still available for download below.").
Proof.
  apply (X1_unreachable_reply host_down (lit "llama3") [] (lit "hi") empty_world
           (lit "Connection refused")).
  - discriminate.
  - reflexivity.
Defined.

(** X2.  When the transfer breaks in the middle of a 200 answer (after
    blank lines and frames that are not terminal, [iter_lines] raises a
    [RequestException] with the cause [e]), the text accumulated so far is
    dropped: [summarize_with_model] returns the same message as for a server
    that cannot be reached, naming [e]. *)
Theorem X2_broken_transfer_reply (h : host) (model context transcript : str)
    (w : world) (r : response) (fragments : list str) (e : str) :
  model <> lit "ollama-not-available" ->
  ollama_generate h model (prompt_of context transcript) = Responded r ->
  status_code r = 200%Z ->
  Forall2 passed (iter_lines r) fragments ->
  stream_error r = Some e ->
  fst (Main.summarize_with_model h model context transcript w)
  = Return (cannot_connect_message e)
  /\ fst (Streamlit.summarize_with_model h model context transcript w)
     = Return (cannot_connect_message e).
Proof.
  intros Hm Hgen Hs Hlines He.
  rewrite main_summarize_generate, streamlit_summarize_generate by done.
  rewrite generate_eq, Hgen, Hs. cbn [Z.eqb Pos.eqb fst].
  rewrite <- (app_nil_r (iter_lines r)).
  rewrite (read_stream_passed _ _ _ _ _ Hlines). cbn [read_stream].
  by rewrite He.
Qed.

Lemma X2_broken_transfer_reply_witness :
  fst (Main.summarize_with_model host_cut (lit "llama3") [] (lit "hi")
         empty_world)
  = Return (cannot_connect_message (lit "Connection broken"))
  /\ fst (Streamlit.summarize_with_model host_cut (lit "llama3") [] (lit "hi")
            empty_world)
     = Return (cannot_connect_message (lit "Connection broken")).
Proof.
  apply (X2_broken_transfer_reply host_cut (lit "llama3") [] (lit "hi")
           empty_world cut_response [lit "A"] (lit "Connection broken")).
  - discriminate.
  - reflexivity.
  - reflexivity.
  - constructor; [|constructor]. right. split; [discriminate|].
    vm_compute. reflexivity.
  - reflexivity.
Defined.

(** X3.  The summary of a 200 answer is the concatenation, in the order of
    arrival, of the fragments of the frames up to and including the first
    frame with [done] set; the lines after that frame, and whether the
    transfer breaks later, make no difference. *)
Theorem X3_summary_up_to_done (h : host) (model context transcript : str)
    (w : world) (r : response) (before : list bytes) (fragments : list str)
    (last : bytes) (fragment : str) (later : list bytes) :
  model <> lit "ollama-not-available" ->
  ollama_generate h model (prompt_of context transcript) = Responded r ->
  status_code r = 200%Z ->
  iter_lines r = before ++ last :: later ->
  Forall2 passed before fragments ->
  last <> [] ->
  frame_step last [] = Return (fragment, true) ->
  fst (Main.summarize_with_model h model context transcript w)
  = Return (concat fragments ++ fragment)
  /\ fst (Streamlit.summarize_with_model h model context transcript w)
     = Return (concat fragments ++ fragment).
Proof.
  intros Hm Hgen Hs Hlines Hbefore Hne Hlast.
  rewrite main_summarize_generate, streamlit_summarize_generate by done.
  rewrite generate_eq, Hgen, Hs, Hlines. cbn [Z.eqb Pos.eqb fst].
  rewrite (read_stream_passed _ _ _ _ _ Hbefore).
  by rewrite (read_stream_done _ _ _ _ _ Hne Hlast).
Qed.

Lemma X3_summary_up_to_done_witness :
  fst (Main.summarize_with_model host_chat (lit "llama3") [] (lit "hi")
         empty_world)
  = Return (concat [lit "A"] ++ lit "B")
  /\ fst (Streamlit.summarize_with_model host_chat (lit "llama3") [] (lit "hi")
            empty_world)
     = Return (concat [lit "A"] ++ lit "B").
Proof.
  apply (X3_summary_up_to_done host_chat (lit "llama3") [] (lit "hi")
           empty_world
           {| status_code := 200; iter_lines := ab_frames;
              stream_error := None; text := [] |}
           [qq "{'response':'A','done':false}"] [lit "A"]
           (qq "{'response':'B','done':true}") (lit "B")
           [qq "{'response':'C','done':false}"]).
  - discriminate.
  - reflexivity.
  - reflexivity.
  - reflexivity.
  - constructor; [|constructor]. right. split; [discriminate|].
    vm_compute. reflexivity.
  - discriminate.
  - vm_compute. reflexivity.
Defined.

(** X4.  A 200 answer that ends without any frame having [done] set is
    not an error: when the lines are exhausted and the transfer did not
    break, the summary is the concatenation of all the fragments received. *)
Theorem X4_summary_without_done (h : host) (model context transcript : str)
    (w : world) (r : response) (fragments : list str) :
  model <> lit "ollama-not-available" ->
  ollama_generate h model (prompt_of context transcript) = Responded r ->
  status_code r = 200%Z ->
  Forall2 passed (iter_lines r) fragments ->
  stream_error r = None ->
  fst (Main.summarize_with_model h model context transcript w)
  = Return (concat fragments)
  /\ fst (Streamlit.summarize_with_model h model context transcript w)
     = Return (concat fragments).
Proof.
  intros Hm Hgen Hs Hlines He.
  rewrite main_summarize_generate, streamlit_summarize_generate by done.
  rewrite generate_eq, Hgen, Hs. cbn [Z.eqb Pos.eqb fst].
  rewrite <- (app_nil_r (iter_lines r)).
  rewrite (read_stream_passed _ _ _ _ _ Hlines). cbn [read_stream].
  by rewrite He.
Qed.

Lemma X4_summary_without_done_witness :
  fst (Main.summarize_with_model host_open (lit "llama3") [] (lit "hi")
         empty_world)
  = Return (concat [lit "A"; []; lit "B"])
  /\ fst (Streamlit.summarize_with_model host_open (lit "llama3") [] (lit "hi")
            empty_world)
     = Return (concat [lit "A"; []; lit "B"]).
Proof.
  apply (X4_summary_without_done host_open (lit "llama3") [] (lit "hi")
           empty_world open_response [lit "A"; []; lit "B"]).
  - discriminate.
  - reflexivity.
  - reflexivity.
  - constructor; [|constructor; [|constructor; [|constructor]]].
    + right. split; [discriminate|]. vm_compute. reflexivity.
    + by left.
    + right. split; [discriminate|]. vm_compute. reflexivity.
  - reflexivity.
Defined.

(** ** Summarisation: what it raises, and what it sends *)

Lemma frame_step_raises line acc e :
  frame_step line acc = Raise e ->
  e = UnicodeDecodeError \/ e = JSONDecodeError
  \/ e = AttributeError \/ e = TypeError.
Proof.
  unfold frame_step. destruct (bytes_decode line); [|intros [= <-]; tauto].
  destruct (json.loads _) as [v|]; [|intros [= <-]; tauto].
  destruct v; try (intros [= <-]; tauto).
  destruct (dict_get _ _ _); intros [= <-]; tauto.
Qed.


(** X5.  A frame the loop cannot digest, for another reason than not being
    JSON, is not handled: when the loop comes to a line that is not UTF-8
    ([UnicodeDecodeError]), that is JSON but not an object ([AttributeError])
    or whose [response] is not a string ([TypeError]), that exception leaves
    [summarize_with_model]; neither [except] clause takes it. *)
Theorem X5_frame_error_escapes (h : host) (model context transcript : str)
    (w : world) (r : response) (before : list bytes) (fragments : list str)
    (bad : bytes) (later : list bytes) (e : exn) :
  model <> lit "ollama-not-available" ->
  ollama_generate h model (prompt_of context transcript) = Responded r ->
  status_code r = 200%Z ->
  iter_lines r = before ++ bad :: later ->
  Forall2 passed before fragments ->
  bad <> [] ->
  frame_step bad [] = Raise e ->
  e <> JSONDecodeError ->
  fst (Main.summarize_with_model h model context transcript w) = Raise e
  /\ fst (Streamlit.summarize_with_model h model context transcript w) = Raise e
  /\ (e = UnicodeDecodeError \/ e = AttributeError \/ e = TypeError).
Proof.
  intros Hm Hgen Hs Hlines Hbefore Hne Hbad HnotJSON.
  rewrite main_summarize_generate, streamlit_summarize_generate by done.
  rewrite generate_eq, Hgen, Hs, Hlines. cbn [Z.eqb Pos.eqb fst].
  rewrite (read_stream_passed _ _ _ _ _ Hbefore).
  rewrite (read_stream_raise _ _ _ _ _ Hne Hbad).
  destruct (frame_step_raises _ _ _ Hbad) as [-> | [-> | [-> | ->]]];
    first [done | repeat split; tauto].
Qed.

Lemma X5_frame_error_escapes_witness :
  fst (Main.summarize_with_model host_garbled (lit "llama3") [] (lit "hi")
         empty_world) = Raise UnicodeDecodeError
  /\ fst (Streamlit.summarize_with_model host_garbled (lit "llama3") [] (lit "hi")
            empty_world) = Raise UnicodeDecodeError
  /\ (UnicodeDecodeError = UnicodeDecodeError
      \/ UnicodeDecodeError = AttributeError \/ UnicodeDecodeError = TypeError).
Proof.
  apply (X5_frame_error_escapes host_garbled (lit "llama3") [] (lit "hi")
           empty_world garbled_response [qq "{'response':'A','done':false}"]
           [lit "A"] [255%N; 254%N] [] UnicodeDecodeError).
  - discriminate.
  - reflexivity.
  - reflexivity.
  - reflexivity.
  - constructor; [|constructor]. right. split; [discriminate|].
    vm_compute. reflexivity.
  - discriminate.
  - vm_compute. reflexivity.
  - discriminate.
Defined.



(** X7.  For a model that is not the sentinel, [summarize_with_model]
    sends exactly one request, whatever the server answers, and touches
    neither the files nor the command log.  The request carries the model
    and a prompt that holds the transcript in full and the context, or the
    sentence [No additional context provided.] when the context is empty. *)
Theorem X7_one_request (h : host) (model context transcript : str) (w : world) :
  model <> lit "ollama-not-available" ->
  let prompt := prompt_of context transcript in
  snd (Main.summarize_with_model h model context transcript w)
  = posted model prompt w
  /\ snd (Streamlit.summarize_with_model h model context transcript w)
     = posted model prompt w
  /\ posts (posted model prompt w) = posts w ++ [(model, prompt)]
  /\ files (posted model prompt w) = files w
  /\ commands (posted model prompt w) = commands w
  /\ contains prompt transcript
  /\ contains prompt
       (if str_eqb context [] then lit "No additional context provided."
        else context).
Proof.
  intros Hm prompt.
  rewrite main_summarize_generate, streamlit_summarize_generate by done.
  rewrite generate_world. repeat (split; [done|]).
  unfold prompt, prompt_of. split; [find_in_string|].
  destruct context as [|c context].
  - change (str_eqb [] []) with true. cbn [or_else]. find_in_string.
  - rewrite str_eqb_false by done.
    change (or_else (c :: context) (lit "No additional context provided."))
      with (c :: context).
    find_in_string.
Qed.

Lemma X7_one_request_witness :
  let prompt := prompt_of [] (lit "hi") in
  let w := empty_world in
  snd (Main.summarize_with_model host_500 (lit "llama3") [] (lit "hi") w)
  = posted (lit "llama3") prompt w
  /\ snd (Streamlit.summarize_with_model host_500 (lit "llama3") [] (lit "hi") w)
     = posted (lit "llama3") prompt w
  /\ posts (posted (lit "llama3") prompt w) = posts w ++ [(lit "llama3", prompt)]
  /\ files (posted (lit "llama3") prompt w) = files w
  /\ commands (posted (lit "llama3") prompt w) = commands w
  /\ contains prompt (lit "hi")
  /\ contains prompt
       (if str_eqb [] [] then lit "No additional context provided." else []).
Proof.
  apply (X7_one_request host_500 (lit "llama3") [] (lit "hi") empty_world).
  discriminate.
Defined.

(** ** The pipeline of main.py, path by path *)

Lemma main_summarize_posts h model context transcript w :
  posts (snd (Main.summarize_with_model h model context transcript w))
  = if str_eqb model (lit "ollama-not-available") then posts w
    else posts w ++ [(model, prompt_of context transcript)].
Proof.
  unfold Main.summarize_with_model. destruct (str_eqb _ _); [done|].
  by rewrite generate_world.
Qed.

(** Every way through [translate_and_summarize]: which files it leaves
    alone, which commands it ran and which requests it sent. *)
Lemma main_run_facts h p context wm lm w :
  let run := Main.translate_and_summarize h p context wm lm w in
  let ffmpeg_cmd := ffmpeg_command p (converted_path p) in
  let whisper_cmd := whisper_command wm (converted_path p) (lit "output.txt") in
  (forall k, k <> converted_path p -> k <> lit "output.txt" ->
             k <> lit "transcript.txt" ->
             files (snd run) !! k = files w !! k)
  /\ (if (fst (ffmpeg h p (converted_path p)) =? 0)%Z
      then commands (snd run) = commands w ++ [ffmpeg_cmd; whisper_cmd]
      else commands (snd run) = commands w ++ [ffmpeg_cmd])
  /\ (if ((fst (ffmpeg h p (converted_path p)) =? 0)
          && (fst (whisper_cli h (model_file wm) (converted_path p)) =? 0))%Z
      then posts (snd run)
           = posts (snd (Main.summarize_with_model h lm context
                           (snd (whisper_cli h (model_file wm) (converted_path p)))
                           w))
      else posts (snd run) = posts w).
Proof.
  intros run ffmpeg_cmd whisper_cmd. unfold run, ffmpeg_cmd, whisper_cmd.
  destruct (Main.translate_and_summarize h p context wm lm w)
    as [o after] eqn:Hrun.
  cbn [snd]. unfold Main.translate_and_summarize in Hrun.
  destruct (ffmpeg h p (converted_path p)) as [code written] eqn:Hff.
  unfold bind at 1 in Hrun. rewrite (main_preprocess_eq _ _ _ _ _ Hff) in Hrun.
  cbn [fst].
  assert (forall k, k <> converted_path p ->
                    ffmpeg_files p written (files w) !! k = files w !! k)
    as Hbase by (intros k Hk; by apply ffmpeg_files_other).
  destruct (code =? 0)%Z.
  2:{ injection Hrun as <- <-. cbn [files commands posts ran andb].
      split; [|done]. intros k Hk _ _. by apply Hbase. }
  destruct (whisper_cli h (model_file wm) (converted_path p))
    as [code2 stdout] eqn:Hwh.
  unfold bind at 1 in Hrun. rewrite (whisper_run_eq _ _ _ _ _ _ Hwh) in Hrun.
  cbn [fst snd andb].
  destruct (code2 =? 0)%Z.
  2:{ injection Hrun as <- <-. cbn [files commands posts ran].
      rewrite <- app_assoc. split; [|done].
      intros k Hk Hko _. rewrite lookup_insert_ne by done. by apply Hbase. }
  unfold bind at 1, read_file in Hrun. cbn [files ran] in Hrun.
  rewrite lookup_insert_eq in Hrun.
  unfold bind at 1, write_file in Hrun. cbn [files ran set_files] in Hrun.
  unfold bind at 1 in Hrun.
  pose proof (converted_path_not_output p) as Hwo.
  pose proof (converted_path_not_transcript p) as Hwt.
  pose proof output_not_transcript as Hot.
  match type of Hrun with
  | context [Main.summarize_with_model h lm context stdout ?W] =>
      pose proof (main_summarize_world h lm context stdout W) as [Hfiles Hcmds];
      pose proof (main_summarize_posts h lm context stdout W) as Hposts;
      cbn [posts set_files ran] in Hposts;
      rewrite <- (main_summarize_posts h lm context stdout w) in Hposts;
      destruct (Main.summarize_with_model h lm context stdout W) as [[summary|e] w4]
  end; cbn [snd files commands posts set_files ran] in Hfiles, Hcmds, Hposts;
    rewrite <- app_assoc in Hcmds.
  - unfold bind, os_remove, ret in Hrun. rewrite Hfiles in Hrun.
    rewrite !(lookup_insert_ne _ _ (converted_path p)) in Hrun by done.
    destruct (ffmpeg_files p written (files w) !! converted_path p) eqn:Hw.
    + cbn [files set_files] in Hrun.
      rewrite lookup_delete_ne, lookup_insert_ne, lookup_insert_eq in Hrun by done.
      injection Hrun as <- <-. cbn [files commands posts set_files].
      split; [|done]. intros k Hk Hko Hkt.
      rewrite !lookup_delete_ne, !lookup_insert_ne by done. by apply Hbase.
    + injection Hrun as <- <-. split; [|done]. intros k Hk Hko Hkt.
      rewrite Hfiles, !lookup_insert_ne by done. by apply Hbase.
  - injection Hrun as <- <-. split; [|done]. intros k Hk Hko Hkt.
    rewrite Hfiles, !lookup_insert_ne by done. by apply Hbase.
Qed.

Lemma main_success_result h p context wm lm w wav stdout :
  ffmpeg h p (converted_path p) = (0%Z, Some wav) ->
  whisper_cli h (model_file wm) (converted_path p) = (0%Z, stdout) ->
  fst (Main.translate_and_summarize h p context wm lm w)
  = match fst (Main.summarize_with_model h lm context stdout w) with
    | Return summary => Return (summary, lit "transcript.txt")
    | Raise e => Raise e
    end.
Proof.
  intros Hff Hwh.
  destruct (Main.translate_and_summarize h p context wm lm w)
    as [o after] eqn:Hrun.
  cbn [fst]. unfold Main.translate_and_summarize in Hrun.
  unfold bind at 1 in Hrun. rewrite (main_preprocess_eq _ _ _ _ _ Hff) in Hrun.
  cbn [Z.eqb] in Hrun.
  unfold bind at 1 in Hrun. rewrite (whisper_run_eq _ _ _ _ _ _ Hwh) in Hrun.
  cbn [Z.eqb] in Hrun.
  unfold bind at 1, read_file in Hrun. cbn [files ran ffmpeg_files] in Hrun.
  rewrite lookup_insert_eq in Hrun.
  unfold bind at 1, write_file in Hrun. cbn [files ran set_files] in Hrun.
  unfold bind at 1 in Hrun.
  pose proof (converted_path_not_output p) as Hwo.
  pose proof (converted_path_not_transcript p) as Hwt.
  pose proof output_not_transcript as Hot.
  match type of Hrun with
  | context [Main.summarize_with_model h lm context stdout ?W] =>
      pose proof (main_summarize_world h lm context stdout W) as [Hfiles _];
      rewrite (main_summarize_outcome h lm context stdout w W);
      destruct (Main.summarize_with_model h lm context stdout W) as [[summary|e] w4]
  end; cbn [fst snd files set_files] in *.
  - unfold bind, os_remove, ret in Hrun. rewrite Hfiles in Hrun.
    rewrite lookup_insert_ne, lookup_insert_ne, lookup_insert_eq in Hrun by done.
    cbn [files set_files] in Hrun.
    rewrite lookup_delete_ne, lookup_insert_ne, lookup_insert_eq in Hrun by done.
    by injection Hrun as <- _.
  - by injection Hrun as <- _.
Qed.

(** X8.  When ffmpeg and the engine both succeed and the summarisation of
    the engine's output returns [summary], [translate_and_summarize] (and
    [gradio_app], which hands its arguments on) returns [summary] with the
    name [transcript.txt]; on return that file holds the engine's output, the
    normalised audio file and [output.txt] are removed, and the two commands
    have been run in this order. *)
Theorem X8_main_success (h : host)
    (audio_file_path context whisper_model llm_model : str) (w : world)
    (wav stdout summary : str) :
  ffmpeg h audio_file_path (converted_path audio_file_path) = (0%Z, Some wav) ->
  whisper_cli h (model_file whisper_model) (converted_path audio_file_path)
  = (0%Z, stdout) ->
  fst (Main.summarize_with_model h llm_model context stdout w) = Return summary ->
  let run :=
    Main.gradio_app h audio_file_path context whisper_model llm_model w in
  fst run = Return (summary, lit "transcript.txt")
  /\ files (snd run) !! lit "transcript.txt" = Some stdout
  /\ files (snd run) !! converted_path audio_file_path = None
  /\ files (snd run) !! lit "output.txt" = None
  /\ commands (snd run)
     = commands w
       ++ [ffmpeg_command audio_file_path (converted_path audio_file_path);
           whisper_command whisper_model (converted_path audio_file_path)
             (lit "output.txt")].
Proof.
  intros Hff Hwh Hsum run. unfold run, Main.gradio_app.
  pose proof (main_success_result _ _ context _ llm_model w _ _ Hff Hwh) as Hres.
  rewrite Hsum in Hres.
  destruct (Main.translate_and_summarize h audio_file_path context whisper_model
              llm_model w) as [o after] eqn:Hrun.
  destruct (main_success_run _ _ _ _ _ _ _ _ _ _ Hff Hwh Hrun) as [Ht Hgone].
  cbn [fst snd] in *. destruct (Hgone _ Hres) as [Hw Ho].
  repeat (split; [done|]).
  pose proof (main_run_facts h audio_file_path context whisper_model llm_model w)
    as (_ & Hcmds & _).
  rewrite Hrun, Hff in Hcmds. exact Hcmds.
Qed.

Lemma X8_main_success_witness :
  let run :=
    Main.gradio_app host_chat (lit "/tmp/a.mp3") [] (lit "small") (lit "llama3")
      empty_world in
  fst run = Return (lit "AB", lit "transcript.txt")
  /\ files (snd run) !! lit "transcript.txt" = Some (lit "hello world")
  /\ files (snd run) !! converted_path (lit "/tmp/a.mp3") = None
  /\ files (snd run) !! lit "output.txt" = None
  /\ commands (snd run)
     = commands empty_world
       ++ [ffmpeg_command (lit "/tmp/a.mp3") (converted_path (lit "/tmp/a.mp3"));
           whisper_command (lit "small") (converted_path (lit "/tmp/a.mp3"))
             (lit "output.txt")].
Proof.
  apply (X8_main_success host_chat (lit "/tmp/a.mp3") [] (lit "small")
           (lit "llama3") empty_world (lit "RIFF") (lit "hello world") (lit "AB")).
  - reflexivity.
  - reflexivity.
  - vm_compute. reflexivity.
Defined.

(** X9.  [translate_and_summarize] touches no file but its three
    artifacts: whatever the tools and the server do, and whether it returns
    or raises, every file other than the normalised audio file, [output.txt]
    and [transcript.txt] is on return what it was before (the input audio
    file among them). *)
Theorem X9_main_touches_only_artifacts (h : host)
    (audio_file_path context whisper_model llm_model : str) (w : world)
    (k : str) :
  k <> converted_path audio_file_path ->
  k <> lit "output.txt" ->
  k <> lit "transcript.txt" ->
  files (snd (Main.translate_and_summarize h audio_file_path context
                whisper_model llm_model w)) !! k
  = files w !! k.
Proof.
  intros H1 H2 H3.
  by apply (main_run_facts h audio_file_path context whisper_model llm_model w).
Qed.

Lemma X9_main_touches_only_artifacts_witness :
  files (snd (Main.translate_and_summarize host_chat (lit "/tmp/a.mp3") []
                (lit "small") (lit "llama3")
                {| files := {[ lit "/tmp/a.mp3" := lit "ID3" ]};
                   commands := []; posts := [] |})) !! lit "/tmp/a.mp3"
  = files {| files := {[ lit "/tmp/a.mp3" := lit "ID3" ]};
             commands := []; posts := [] |} !! lit "/tmp/a.mp3".
Proof.
  apply (X9_main_touches_only_artifacts host_chat (lit "/tmp/a.mp3") []
           (lit "small") (lit "llama3")
           {| files := {[ lit "/tmp/a.mp3" := lit "ID3" ]};
              commands := []; posts := [] |} (lit "/tmp/a.mp3")).
  - vm_compute. discriminate.
  - discriminate.
  - discriminate.
Defined.

(** X10.  [translate_and_summarize] runs the ffmpeg command first and the
    engine command only if ffmpeg exited with status 0, each at most once;
    and it sends to the server only what the summarisation of the engine's
    output sends, and nothing at all unless both exited with status 0. *)
Theorem X10_main_order_of_effects (h : host)
    (audio_file_path context whisper_model llm_model : str) (w : world) :
  let run :=
    Main.translate_and_summarize h audio_file_path context whisper_model
      llm_model w in
  let wav_path := converted_path audio_file_path in
  let ffmpeg_status := fst (ffmpeg h audio_file_path wav_path) in
  let engine := whisper_cli h (model_file whisper_model) wav_path in
  (if (ffmpeg_status =? 0)%Z
   then commands (snd run)
        = commands w
          ++ [ffmpeg_command audio_file_path wav_path;
              whisper_command whisper_model wav_path (lit "output.txt")]
   else commands (snd run)
        = commands w ++ [ffmpeg_command audio_file_path wav_path])
  /\ (if ((ffmpeg_status =? 0) && (fst engine =? 0))%Z
      then posts (snd run)
           = posts (snd (Main.summarize_with_model h llm_model context
                           (snd engine) w))
      else posts (snd run) = posts w).
Proof.
  intros run wav_path ffmpeg_status engine.
  apply (main_run_facts h audio_file_path context whisper_model llm_model w).
Qed.

(** ** The pipeline of streamlit_app.py, path by path *)

Lemma streamlit_summarize_posts h model context transcript w :
  posts (snd (Streamlit.summarize_with_model h model context transcript w))
  = if str_eqb model (lit "ollama-not-available") then posts w
    else posts w ++ [(model, prompt_of context transcript)].
Proof.
  unfold Streamlit.summarize_with_model. destruct (str_eqb _ _); [done|].
  by rewrite generate_world.
Qed.

(** Every way through [transcribe_audio]. *)
Lemma streamlit_transcribe_facts h p wm w :
  let run := Streamlit.transcribe_audio h p wm w in
  let status := fst (ffmpeg h p (converted_path p)) in
  let engine := whisper_cli h (model_file wm) (converted_path p) in
  posts (snd run) = posts w
  /\ (if (status =? 0)%Z then
        commands (snd run)
        = commands w ++ [ffmpeg_command p (converted_path p);
                         whisper_command wm (converted_path p) (lit "output.txt")]
        /\ (fst run = Return (Some (snd engine))
            \/ fst run = Return (Some (Streamlit.whisper_unavailable_message p wm)))
        /\ ((fst engine =? 0)%Z = false ->
            fst run = Return (Some (Streamlit.whisper_unavailable_message p wm)))
      else
        commands (snd run) = commands w ++ [ffmpeg_command p (converted_path p)]
        /\ fst run = Return None).
Proof.
  intros run status engine. unfold run, status, engine.
  destruct (Streamlit.transcribe_audio h p wm w) as [o after] eqn:Hrun.
  cbn [fst snd]. unfold Streamlit.transcribe_audio in Hrun.
  destruct (ffmpeg h p (converted_path p)) as [code written] eqn:Hff.
  unfold bind at 1 in Hrun. rewrite (streamlit_preprocess_eq _ _ _ _ _ Hff) in Hrun.
  cbn [fst].
  destruct (code =? 0)%Z; [|by injection Hrun as <- <-].
  pose proof (converted_path_nonempty p) as Hne.
  pose proof (converted_path_not_output p) as Hwo.
  pose proof (not_eq_sym Hwo) as How.
  destruct (converted_path p) as [|c wavp] eqn:Hwav; [done|].
  destruct (whisper_cli h (model_file wm) (c :: wavp)) as [code2 stdout] eqn:Hwh.
  unfold try_except, bind in Hrun.
  rewrite (whisper_run_eq _ _ _ _ _ _ Hwh) in Hrun. cbn [fst snd].
  destruct (code2 =? 0)%Z.
  - unfold read_file, os_remove, ret in Hrun. cbn [files ran set_files] in Hrun.
    rewrite lookup_insert_eq in Hrun. cbn [files ran set_files] in Hrun.
    rewrite lookup_insert_ne in Hrun by done.
    destruct (ffmpeg_files p written (files w) !! (c :: wavp)) eqn:Hw.
    + cbn [files ran set_files] in Hrun.
      rewrite lookup_delete_ne, lookup_insert_eq in Hrun by done.
      injection Hrun as <- <-. cbn [posts commands set_files ran].
      rewrite <- app_assoc. split; [done|]. split; [done|]. split; [by left|done].
    + injection Hrun as <- <-. cbn [posts commands ran].
      rewrite <- app_assoc. split; [done|]. split; [done|]. split; [by right|done].
  - unfold ret in Hrun. injection Hrun as <- <-. cbn [posts commands ran].
    rewrite <- app_assoc. split; [done|]. split; [done|]. split; [by right|done].
Qed.


(** X12.  When ffmpeg and the engine both succeed, [transcribe_audio]
    returns what the engine printed, and on return the normalised audio file
    and [output.txt] are removed. *)
Theorem X12_transcribe_success (h : host) (audio_file_path whisper_model : str)
    (w : world) (wav stdout : str) :
  ffmpeg h audio_file_path (converted_path audio_file_path) = (0%Z, Some wav) ->
  whisper_cli h (model_file whisper_model) (converted_path audio_file_path)
  = (0%Z, stdout) ->
  let run := Streamlit.transcribe_audio h audio_file_path whisper_model w in
  fst run = Return (Some stdout)
  /\ files (snd run) !! converted_path audio_file_path = None
  /\ files (snd run) !! lit "output.txt" = None.
Proof. apply streamlit_success_run. Qed.

Lemma X12_transcribe_success_witness :
  let run :=
    Streamlit.transcribe_audio host_chat (lit "/tmp/a.mp3") (lit "small")
      empty_world in
  fst run = Return (Some (lit "hello world"))
  /\ files (snd run) !! converted_path (lit "/tmp/a.mp3") = None
  /\ files (snd run) !! lit "output.txt" = None.
Proof.
  apply (X12_transcribe_success host_chat (lit "/tmp/a.mp3") (lit "small")
           empty_world (lit "RIFF") (lit "hello world")); reflexivity.
Defined.

(** [main] when the transcription gives nothing to show. *)
Lemma streamlit_main_failed h data tmp wm lm context w :
  fst (Streamlit.transcribe_audio h tmp wm (uploaded tmp data w)) = Return None
  \/ fst (Streamlit.transcribe_audio h tmp wm (uploaded tmp data w))
     = Return (Some []) ->
  Streamlit.main h (Some data) tmp true wm lm context w
  = (Return Streamlit.TranscribeFailed,
     snd (Streamlit.transcribe_audio h tmp wm (uploaded tmp data w))).
Proof.
  intros H. unfold Streamlit.main.
  unfold bind at 1, write_file. unfold bind at 1. fold (uploaded tmp data w).
  destruct (Streamlit.transcribe_audio h tmp wm (uploaded tmp data w))
    as [o w1]. cbn [fst snd] in *.
  by destruct H as [-> | ->].
Qed.

(** [main] when there is a transcript to show: what is shown and what was
    sent. *)
Lemma streamlit_main_shown h data tmp wm lm context w c t :
  fst (Streamlit.transcribe_audio h tmp wm (uploaded tmp data w))
  = Return (Some (c :: t)) ->
  let run := Streamlit.main h (Some data) tmp true wm lm context w in
  let summarised := Streamlit.summarize_with_model h lm context (c :: t) w in
  fst run = match fst summarised with
            | Return summary => Return (Streamlit.Results summary (c :: t))
            | Raise e => Raise e
            end
  /\ posts (snd run) = posts (snd summarised).
Proof.
  intros Ht run summarised. unfold run, summarised.
  destruct (Streamlit.main h (Some data) tmp true wm lm context w)
    as [o after] eqn:Hrun.
  cbn [fst snd]. unfold Streamlit.main in Hrun.
  unfold bind at 1, write_file in Hrun. unfold bind at 1 in Hrun.
  fold (uploaded tmp data w) in Hrun.
  pose proof (streamlit_transcribe_facts h tmp wm (uploaded tmp data w))
    as [Hposts _].
  destruct (Streamlit.transcribe_audio h tmp wm (uploaded tmp data w))
    as [o1 w1]. cbn [fst snd] in Ht, Hposts. subst o1.
  unfold bind at 1, write_file in Hrun. unfold bind at 1 in Hrun.
  match type of Hrun with
  | context [Streamlit.summarize_with_model h lm context (c :: t) ?W] =>
      pose proof (streamlit_summarize_posts h lm context (c :: t) W) as Hp;
      cbn [posts set_files] in Hp; rewrite Hposts in Hp;
      change (posts (uploaded tmp data w)) with (posts w) in Hp;
      rewrite <- (streamlit_summarize_posts h lm context (c :: t) w) in Hp;
      rewrite (streamlit_summarize_outcome h lm context (c :: t) w W);
      destruct (Streamlit.summarize_with_model h lm context (c :: t) W)
        as [[s|e] w3]
  end; cbn [fst snd] in *; [|by injection Hrun as <- <-].
  unfold bind at 1 in Hrun.
  match type of Hrun with
  | context [try_except ?body ?handler w3] =>
      assert (exists w4, try_except body handler w3 = (Return tt, w4)
                         /\ posts w4 = posts w3) as (w4 & Hclean & Hp4)
  end.
  { unfold try_except, bind, os_remove, os_path_exists, ret.
    destruct (files w3 !! tmp); [|by eexists].
    cbn [files set_files].
    destruct (bool_decide _); [|eexists; split; reflexivity].
    cbn [files set_files].
    destruct (delete tmp (files w3) !! lit "transcript.txt");
      eexists; split; reflexivity. }
  rewrite Hclean in Hrun. unfold ret in Hrun. injection Hrun as <- <-.
  by rewrite Hp4.
Qed.

(** X13.  In [main] of [streamlit_app.py], when normalisation fails, or
    when the engine succeeds and prints nothing (an empty transcript counts
    as none), the page shows the failure, nothing is sent to the server and
    [transcript.txt] is not written.  The upload saved under the temporary
    name is not removed in this branch: it stays on disk. *)
Theorem X13_main_nothing_to_show (h : host) (data tmp_file_path : str)
    (whisper_model llm_model context : str) (w : world) (wav : str) :
  tmp_file_path <> lit "output.txt" ->
  fst (ffmpeg h tmp_file_path (converted_path tmp_file_path)) <> 0%Z
  \/ ffmpeg h tmp_file_path (converted_path tmp_file_path) = (0%Z, Some wav)
     /\ whisper_cli h (model_file whisper_model) (converted_path tmp_file_path)
        = (0%Z, []) ->
  let run :=
    Streamlit.main h (Some data) tmp_file_path true whisper_model llm_model
      context w in
  fst run = Return Streamlit.TranscribeFailed
  /\ posts (snd run) = posts w
  /\ files (snd run) !! tmp_file_path = Some data
  /\ (tmp_file_path <> lit "transcript.txt" ->
      files (snd run) !! lit "transcript.txt" = files w !! lit "transcript.txt").
Proof.
  intros Htmp Hcase run. unfold run.
  pose proof (streamlit_transcribe_facts h tmp_file_path whisper_model
                (uploaded tmp_file_path data w)) as [Hposts Hstatus].
  assert (fst (Streamlit.transcribe_audio h tmp_file_path whisper_model
                 (uploaded tmp_file_path data w)) = Return None
          \/ fst (Streamlit.transcribe_audio h tmp_file_path whisper_model
                    (uploaded tmp_file_path data w)) = Return (Some []))
    as Hnone.
  { destruct Hcase as [Hcode | [Hff Hwh]].
    - left. apply Z.eqb_neq in Hcode. rewrite Hcode in Hstatus. tauto.
    - right. by apply (streamlit_success_run _ _ _ _ _ _ Hff Hwh). }
  rewrite (streamlit_main_failed _ _ _ _ _ _ _ Hnone). cbn [fst snd].
  split; [done|]. split; [exact Hposts|].
  pose proof (not_eq_sym (converted_path_fresh tmp_file_path)) as Hfresh.
  split.
  - rewrite streamlit_transcribe_other by done.
    unfold uploaded, set_files. cbn [files]. apply lookup_insert_eq.
  - intros Hnt.
    rewrite streamlit_transcribe_other
      by (apply not_eq_sym; first [apply converted_path_not_transcript
                                  |apply output_not_transcript]).
    unfold uploaded, set_files. cbn [files]. by rewrite lookup_insert_ne.
Qed.

Lemma X13_main_nothing_to_show_witness :
  let run :=
    Streamlit.main host_mute (Some (lit "ID3")) (lit "/tmp/a.mp3") true
      (lit "small") (lit "llama3") [] empty_world in
  fst run = Return Streamlit.TranscribeFailed
  /\ posts (snd run) = posts empty_world
  /\ files (snd run) !! lit "/tmp/a.mp3" = Some (lit "ID3")
  /\ (lit "/tmp/a.mp3" <> lit "transcript.txt" ->
      files (snd run) !! lit "transcript.txt"
      = files empty_world !! lit "transcript.txt").
Proof.
  apply (X13_main_nothing_to_show host_mute (lit "ID3") (lit "/tmp/a.mp3")
           (lit "small") (lit "llama3") [] empty_world (lit "RIFF")).
  - discriminate.
  - right. split; reflexivity.
Defined.

(** X14.  In [main] of [streamlit_app.py], when the engine fails the
    pipeline goes on with the placeholder: the placeholder is what is shown
    as the transcript, and for a model that is not the sentinel it is also
    what is sent to the server to be summarised, inside the prompt. *)
Theorem X14_placeholder_is_summarised (h : host) (data tmp_file_path : str)
    (whisper_model llm_model context : str) (w : world)
    (written : option str) (returncode : Z) (stdout summary : str) :
  ffmpeg h tmp_file_path (converted_path tmp_file_path) = (0%Z, written) ->
  whisper_cli h (model_file whisper_model) (converted_path tmp_file_path)
  = (returncode, stdout) ->
  returncode <> 0%Z ->
  llm_model <> lit "ollama-not-available" ->
  let placeholder :=
    Streamlit.whisper_unavailable_message tmp_file_path whisper_model in
  fst (Streamlit.summarize_with_model h llm_model context placeholder w)
  = Return summary ->
  let run :=
    Streamlit.main h (Some data) tmp_file_path true whisper_model llm_model
      context w in
  fst run = Return (Streamlit.Results summary placeholder)
  /\ posts (snd run) = posts w ++ [(llm_model, prompt_of context placeholder)]
  /\ contains (prompt_of context placeholder) placeholder.
Proof.
  intros Hff Hwh Hcode Hm placeholder Hsum run. unfold run.
  assert (exists c t, placeholder = c :: t) as (c & t & Hp)
      by (eexists _, _; reflexivity).
  pose proof (streamlit_engine_failure h tmp_file_path whisper_model
                (uploaded tmp_file_path data w) _ _ _ Hff Hwh Hcode) as Ht.
  apply (f_equal fst) in Ht. cbn [fst] in Ht.
  fold placeholder in Ht. rewrite Hp in Ht, Hsum.
  destruct (streamlit_main_shown h data tmp_file_path whisper_model llm_model
              context w c t Ht) as [Hres Hposts].
  rewrite Hsum in Hres. rewrite Hp.
  split; [exact Hres|]. split.
  - rewrite Hposts, streamlit_summarize_posts. by rewrite str_eqb_false.
  - unfold prompt_of. find_in_string.
Qed.

Lemma X14_placeholder_is_summarised_witness :
  let placeholder :=
    Streamlit.whisper_unavailable_message (lit "/tmp/a.mp3") (lit "small") in
  let run :=
    Streamlit.main host_no_engine_chat (Some (lit "ID3")) (lit "/tmp/a.mp3") true
      (lit "small") (lit "llama3") [] empty_world in
  fst run = Return (Streamlit.Results (lit "AB") placeholder)
  /\ posts (snd run)
     = posts empty_world ++ [(lit "llama3", prompt_of [] placeholder)]
  /\ contains (prompt_of [] placeholder) placeholder.
Proof.
  apply (X14_placeholder_is_summarised host_no_engine_chat (lit "ID3")
           (lit "/tmp/a.mp3") (lit "small") (lit "llama3") [] empty_world
           (Some (lit "RIFF")) 127 [] (lit "AB")).
  - reflexivity.
  - reflexivity.
  - discriminate.
  - discriminate.
  - vm_compute. reflexivity.
Defined.

(** X15.  In [main] of [streamlit_app.py], when the engine printed a
    transcript that is not empty and its summarisation returns [summary]
    (a summary, or one of the messages that explain why there is none), the
    page shows [summary] with the transcript: a failed summarisation does not
    keep the transcript from the user. *)
Theorem X15_main_shows_transcript (h : host) (data tmp_file_path : str)
    (whisper_model llm_model context : str) (w : world)
    (wav : str) (c : N) (stdout summary : str) :
  ffmpeg h tmp_file_path (converted_path tmp_file_path) = (0%Z, Some wav) ->
  whisper_cli h (model_file whisper_model) (converted_path tmp_file_path)
  = (0%Z, c :: stdout) ->
  fst (Streamlit.summarize_with_model h llm_model context (c :: stdout) w)
  = Return summary ->
  fst (Streamlit.main h (Some data) tmp_file_path true whisper_model llm_model
         context w)
  = Return (Streamlit.Results summary (c :: stdout)).
Proof.
  intros Hff Hwh Hsum.
  destruct (streamlit_success_run h tmp_file_path whisper_model
              (uploaded tmp_file_path data w) _ _ Hff Hwh) as [Ht _].
  destruct (streamlit_main_shown h data tmp_file_path whisper_model llm_model
              context w c stdout Ht) as [Hres _].
  by rewrite Hsum in Hres.
Qed.

Lemma X15_main_shows_transcript_witness :
  fst (Streamlit.main host_down (Some (lit "ID3")) (lit "/tmp/a.mp3") true
         (lit "small") (lit "llama3") [] empty_world)
  = Return (Streamlit.Results (cannot_connect_message (lit "Connection refused"))
              (104%N :: lit "ello world")).
Proof.
  apply (X15_main_shows_transcript host_down (lit "ID3") (lit "/tmp/a.mp3")
           (lit "small") (lit "llama3") [] empty_world (lit "RIFF") 104%N
           (lit "ello world")).
  - reflexivity.
  - reflexivity.
  - vm_compute. reflexivity.
Defined.

(** X16.  In [main] of [streamlit_app.py], once the results are shown the
    upload saved under the temporary name has been removed, and apart from
    that name, [transcript.txt] and the two working files of the
    transcription, every file is as it was before. *)
Theorem X16_main_removes_upload (h : host) (data tmp_file_path : str)
    (whisper_model llm_model context : str) (w : world)
    (summary transcript : str) :
  tmp_file_path <> lit "output.txt" ->
  let run :=
    Streamlit.main h (Some data) tmp_file_path true whisper_model llm_model
      context w in
  fst run = Return (Streamlit.Results summary transcript) ->
  files (snd run) !! tmp_file_path = None
  /\ forall k : str,
       k <> tmp_file_path -> k <> lit "transcript.txt" ->
       k <> converted_path tmp_file_path -> k <> lit "output.txt" ->
       files (snd run) !! k = files w !! k.
Proof.
  intros Htmp run. unfold run. clear run.
  destruct (Streamlit.main h (Some data) tmp_file_path true whisper_model
              llm_model context w) as [o after] eqn:Hrun.
  cbn [fst snd]. intros ->.
  unfold Streamlit.main in Hrun.
  unfold bind at 1, write_file in Hrun.
  unfold bind at 1 in Hrun.
  match type of Hrun with
  | context [Streamlit.transcribe_audio h tmp_file_path whisper_model ?W] =>
      pose proof (streamlit_transcribe_other h tmp_file_path whisper_model W)
        as Hkeep;
      destruct (Streamlit.transcribe_audio h tmp_file_path whisper_model W)
        as [[t|e] w1]
  end; [|done].
  cbn [snd files set_files] in Hkeep.
  destruct t as [[|c t]|]; [done| |done].
  unfold bind at 1, write_file in Hrun.
  unfold bind at 1 in Hrun.
  match type of Hrun with
  | context [Streamlit.summarize_with_model h llm_model context (c :: t) ?W] =>
      pose proof (streamlit_summarize_world h llm_model context (c :: t) W)
        as [Hfiles _];
      destruct (Streamlit.summarize_with_model h llm_model context (c :: t) W)
        as [[s|e] w3]
  end; [|done].
  cbn [snd files set_files] in Hfiles.
  assert (files after
          = delete (lit "transcript.txt")
              (delete tmp_file_path
                 (<[lit "transcript.txt" := c :: t]> (files w1)))) as ->.
  { unfold bind, try_except, os_remove, os_path_exists, ret in Hrun.
    rewrite Hfiles in Hrun.
    destruct (decide (tmp_file_path = lit "transcript.txt")) as [->|Hne].
    - rewrite lookup_insert_eq in Hrun. cbn [files set_files] in Hrun.
      rewrite lookup_delete_eq in Hrun.
      rewrite bool_decide_eq_false_2 in Hrun by (by intros [? ?]).
      apply (f_equal snd) in Hrun. cbn [snd] in Hrun. subst after.
      unfold set_files. cbn [files].
      symmetry. apply delete_id. apply lookup_delete_eq.
    - rewrite lookup_insert_ne, (Hkeep tmp_file_path) in Hrun
        by first [done | apply not_eq_sym, converted_path_fresh].
      rewrite lookup_insert_eq in Hrun.
      cbn [files set_files] in Hrun.
      rewrite lookup_delete_ne, lookup_insert_eq in Hrun by done.
      rewrite bool_decide_eq_true_2 in Hrun by done.
      unfold set_files in Hrun. cbn [files] in Hrun.
      rewrite lookup_delete_ne, lookup_insert_eq in Hrun by done.
      apply (f_equal snd) in Hrun. cbn [snd files] in Hrun. subst after.
      reflexivity. }
  split.
  - destruct (decide (tmp_file_path = lit "transcript.txt")) as [->|Hne].
    + apply lookup_delete_eq.
    + rewrite lookup_delete_ne by done. apply lookup_delete_eq.
  - intros k Hk1 Hk2 Hk3 Hk4.
    rewrite lookup_delete_ne, lookup_delete_ne, lookup_insert_ne by done.
    rewrite Hkeep by done. by rewrite lookup_insert_ne.
Qed.

Lemma X16_main_removes_upload_witness :
  let run :=
    Streamlit.main host_chat (Some (lit "ID3")) (lit "/tmp/a.mp3") true
      (lit "small") (lit "llama3") [] empty_world in
  files (snd run) !! lit "/tmp/a.mp3" = None
  /\ forall k : str,
       k <> lit "/tmp/a.mp3" -> k <> lit "transcript.txt" ->
       k <> converted_path (lit "/tmp/a.mp3") -> k <> lit "output.txt" ->
       files (snd run) !! k = files empty_world !! k.
Proof.
  apply (X16_main_removes_upload host_chat (lit "ID3") (lit "/tmp/a.mp3")
           (lit "small") (lit "llama3") [] empty_world (lit "AB")
           (lit "hello world")).
  - discriminate.
  - vm_compute. reflexivity.
Defined.

(** ** Paths with an extension *)

Section extensions.
Import os_path.

Lemma rfind_from_app c a b i last :
  rfind_from c (a ++ b) i last
  = rfind_from c b (i + Z.of_nat (length a))%Z (rfind_from c a i last).
Proof.
  revert i last. induction a as [|x a IH]; intros i last; simpl.
  - by rewrite Z.add_0_r.
  - rewrite IH. f_equal. lia.
Qed.

Lemma rfind_from_absent c p i last :
  c ∉ p -> rfind_from c p i last = last.
Proof.
  revert i last. induction p as [|x p IH]; intros i last Hc; simpl; [done|].
  apply not_elem_of_cons in Hc as [Hx Hp].
  rewrite IH by done. destruct (N.eqb_spec x c); congruence.
Qed.

Lemma rfind_last c a b :
  c ∉ b -> rfind c (a ++ c :: b) = Z.of_nat (length a).
Proof.
  intros Hc. unfold rfind. rewrite rfind_from_app. simpl.
  rewrite N.eqb_refl. by rewrite rfind_from_absent.
Qed.

Lemma rfind_none c p : c ∉ p -> rfind c p = (-1)%Z.
Proof. apply rfind_from_absent. Qed.

(** [splitext] on a path made of a directory part, a file name that does
    not start with a dot, and an extension. *)
Lemma splitext_extension dir c name ext :
  dir = [] \/ (exists d, dir = d ++ [sep]) ->
  c <> extsep -> sep ∉ c :: name -> sep ∉ ext -> extsep ∉ ext ->
  splitext (dir ++ (c :: name) ++ extsep :: ext)
  = (dir ++ c :: name, extsep :: ext).
Proof.
  intros Hdir Hc Hname Hsep Hext.
  assert (sep <> extsep) as Hse by discriminate.
  assert (rfind extsep (dir ++ (c :: name) ++ extsep :: ext)
          = Z.of_nat (length (dir ++ c :: name))) as Hdot.
  { rewrite app_assoc. by apply rfind_last. }
  assert (rfind sep (dir ++ (c :: name) ++ extsep :: ext)
          = (Z.of_nat (length dir) - 1)%Z) as Hsepi.
  { assert (sep ∉ (c :: name) ++ extsep :: ext) as Hrest
        by (rewrite not_elem_of_app, (not_elem_of_cons ext); tauto).
    destruct Hdir as [->|[d ->]].
    - by apply rfind_none.
    - rewrite <- (app_assoc d [sep]).
      change ([sep] ++ (c :: name) ++ extsep :: ext)
        with (sep :: ((c :: name) ++ extsep :: ext)).
      rewrite rfind_last by done.
      rewrite length_app. simpl. lia. }
  unfold splitext. rewrite Hdot, Hsepi.
  rewrite length_app. simpl length.
  destruct (Z.ltb_spec (Z.of_nat (length dir) - 1)
              (Z.of_nat (length dir + S (length name)))) as [_|]; [|lia].
  simpl splitext_loop.
  destruct (Z.ltb_spec (Z.of_nat (length dir) - 1 + 1)
              (Z.of_nat (length dir + S (length name)))) as [_|]; [|lia].
  unfold upto, from.
  replace (Z.to_nat (Z.of_nat (length dir) - 1 + 1)) with (length dir) by lia.
  rewrite drop_app_length. simpl take at 1.
  unfold str_eqb. rewrite bool_decide_eq_false_2 by congruence.
  simpl negb. cbv iota.
  rewrite Nat2Z.id.
  replace (length dir + S (length name))%nat with (length (dir ++ c :: name))
    by (rewrite length_app; reflexivity).
  change (dir ++ c :: name ++ extsep :: ext)
    with (dir ++ (c :: name) ++ extsep :: ext).
  rewrite app_assoc. by rewrite take_app_length, drop_app_length.
Qed.

End extensions.

(** ** The models offered for transcription *)

Lemma remove_from_skip old pre s :
  remove_from old (pre ++ s) (length pre) = remove_from old s 0.
Proof.
  induction pre as [|c pre IH]; [done|]. simpl. exact IH.
Qed.

Lemma remove_from_prefix c old s :
  str_remove ((c :: old) ++ s) (c :: old) = str_remove s (c :: old).
Proof.
  unfold str_remove.
  change ((c :: old) ++ s) with (c :: (old ++ s)).
  cbn [remove_from].
  change (c :: (old ++ s)) with ((c :: old) ++ s).
  rewrite startswith_app.
  replace (length (c :: old) - 1) with (length old) by (simpl; lia).
  apply remove_from_skip.
Qed.

Lemma remove_from_absent old s :
  str_in old s = false -> str_remove s old = s.
Proof.
  unfold str_remove. induction s as [|c s IH]; [done|].
  cbn [str_in remove_from]. intros [Hhere Hlater]%orb_false_iff.
  rewrite Hhere. f_equal. by apply IH.
Qed.

Lemma endswith_app s suffix : endswith (s ++ suffix) suffix = true.
Proof. unfold endswith. rewrite rev_app_distr. apply startswith_app. Qed.

Lemma contains_prefix s a b : contains s (a ++ b) -> contains s a.
Proof.
  intros (pre & post & ->). exists pre, (b ++ post). by rewrite <- app_assoc.
Qed.

(** X17.  For an input path made of a directory part, a file name that does
    not start with a dot and an extension, the normalised audio is written
    next to the input, under the file name with [_converted.wav] in place of
    the extension.  So two inputs that differ only in their extension are
    normalised to the same file. *)
Theorem X17_converted_path_form (dir : str) (c : N) (name ext : str) :
  dir = [] \/ (exists d, dir = d ++ [os_path.sep]) ->
  c <> os_path.extsep ->
  os_path.sep ∉ c :: name ->
  os_path.sep ∉ ext -> os_path.extsep ∉ ext ->
  converted_path (dir ++ (c :: name) ++ os_path.extsep :: ext)
  = dir ++ (c :: name) ++ lit "_converted.wav"
  /\ forall ext' : str,
       os_path.sep ∉ ext' -> os_path.extsep ∉ ext' ->
       converted_path (dir ++ (c :: name) ++ os_path.extsep :: ext')
       = converted_path (dir ++ (c :: name) ++ os_path.extsep :: ext).
Proof.
  intros Hdir Hc Hname Hsep Hext.
  assert (forall e, os_path.sep ∉ e -> os_path.extsep ∉ e ->
            converted_path (dir ++ (c :: name) ++ os_path.extsep :: e)
            = dir ++ (c :: name) ++ lit "_converted.wav") as Hform.
  { intros e He1 He2. unfold converted_path.
    rewrite splitext_extension by done. cbn [fst]. by rewrite <- app_assoc. }
  split; [by apply Hform|].
  intros ext' H1 H2. by rewrite !Hform.
Qed.

Lemma X17_converted_path_form_witness :
  converted_path (lit "/tmp/" ++ (97%N :: lit "b") ++ os_path.extsep :: lit "mp3")
  = lit "/tmp/" ++ (97%N :: lit "b") ++ lit "_converted.wav"
  /\ forall ext' : str,
       os_path.sep ∉ ext' -> os_path.extsep ∉ ext' ->
       converted_path (lit "/tmp/" ++ (97%N :: lit "b") ++ os_path.extsep :: ext')
       = converted_path
           (lit "/tmp/" ++ (97%N :: lit "b") ++ os_path.extsep :: lit "mp3").
Proof.
  apply (X17_converted_path_form (lit "/tmp/") 97%N (lit "b") (lit "mp3")).
  - right. exists (lit "/tmp"). reflexivity.
  - discriminate.
  - apply (bool_decide_unpack _). reflexivity.
  - apply (bool_decide_unpack _). reflexivity.
  - apply (bool_decide_unpack _). reflexivity.
Defined.

(** X18.  A model file [ggml-NAME.bin] of the models directory that passes
    the filter is offered under NAME by both versions of
    [get_available_whisper_models], and the model file the engine is then
    run with, [model_file NAME], is that file of the directory: what the
    listing strips from the file name is what the command puts back. *)
Theorem X18_offered_model_is_loaded (listing : list str) (name : str) :
  let f := lit "ggml-" ++ name ++ lit ".bin" in
  f ∈ listing ->
  names_valid_model f = true ->
  os_path.sep ∉ name ->
  str_in (lit "ggml-") name = false ->
  name ∈ StreamlitDiscovery.get_available_whisper_models true (Return listing)
  /\ (exists offered,
        MainDiscovery.get_available_whisper_models (Return listing)
        = Return offered
        /\ name ∈ offered)
  /\ model_file name = WHISPER_MODEL_DIR ++ lit "/" ++ f.
Proof.
  intros f Hin Hvalid Hsep Hclean.
  assert (is_bin f = true) as Hbin.
  { unfold is_bin, f. rewrite app_assoc. apply endswith_app. }
  assert (model_name f = name) as Hname.
  { unfold model_name, f.
    change (lit "ggml-" ++ name ++ lit ".bin")
      with ([] ++ (103%N :: (lit "gml-" ++ name))
               ++ os_path.extsep :: lit "bin").
    rewrite splitext_extension.
    - cbn [fst app].
      change (103%N :: (lit "gml-" ++ name))
        with ((103%N :: lit "gml-") ++ name).
      rewrite remove_from_prefix. by apply remove_from_absent.
    - by left.
    - discriminate.
    - rewrite not_elem_of_cons, not_elem_of_app.
      split; [discriminate|]. split; [|done].
      apply (bool_decide_unpack _). reflexivity.
    - apply (bool_decide_unpack _). reflexivity.
    - apply (bool_decide_unpack _). reflexivity. }
  assert (name ∈ whisper_models_of listing) as Hoffered.
  { unfold whisper_models_of. rewrite <- Hname.
    apply list_elem_of_In, in_map, filter_In. split; [|done].
    apply filter_In. split; [|done]. by apply list_elem_of_In. }
  split; [|split].
  - unfold StreamlitDiscovery.get_available_whisper_models.
    destruct (whisper_models_of listing) as [|x l] eqn:Hl.
    + by apply elem_of_nil in Hoffered.
    + by apply elem_of_list_to_set.
  - eexists. split; [reflexivity|]. by apply elem_of_list_to_set.
  - unfold model_file, WHISPER_MODEL_DIR, f.
    change (lit "./whisper.cpp/models/ggml-")
      with (lit "./whisper.cpp/models" ++ lit "/" ++ lit "ggml-").
    by rewrite <- !app_assoc.
Qed.

Lemma X18_offered_model_is_loaded_witness :
  lit "small"
  ∈ StreamlitDiscovery.get_available_whisper_models true
      (Return [lit "README.md"; lit "ggml-small.bin"])
  /\ (exists offered,
        MainDiscovery.get_available_whisper_models
          (Return [lit "README.md"; lit "ggml-small.bin"])
        = Return offered
        /\ lit "small" ∈ offered)
  /\ model_file (lit "small")
     = WHISPER_MODEL_DIR ++ lit "/" ++ lit "ggml-" ++ lit "small" ++ lit ".bin".
Proof.
  apply (X18_offered_model_is_loaded
           [lit "README.md"; lit "ggml-small.bin"] (lit "small")).
  - apply (bool_decide_unpack _). reflexivity.
  - reflexivity.
  - apply (bool_decide_unpack _). reflexivity.
  - reflexivity.
Defined.

(** X19.  The test on the file name in [get_available_whisper_models] is a
    substring test, so the entry [large-V3] of [valid_models] never decides:
    a name that holds it holds [large], and the filter is the same without
    it. *)
Theorem X19_large_V3_never_decides (f : str) :
  names_valid_model f
  = existsb (fun valid_model => str_in valid_model f)
      [lit "base"; lit "small"; lit "medium"; lit "large"]
    && negb (str_in (lit "test") f).
Proof.
  unfold names_valid_model, valid_models. f_equal.
  cbn [existsb]. rewrite !orb_false_r.
  destruct (str_in (lit "large-V3") f) eqn:HV3; [|by rewrite orb_false_r].
  assert (str_in (lit "large") f = true) as ->.
  { apply str_in_spec. apply str_in_spec in HV3.
    by apply (contains_prefix f (lit "large") (lit "-V3")). }
  by rewrite !orb_true_r.
Qed.

(** X20.  [get_available_whisper_models] of [streamlit_app.py] never
    returns an empty choice.  When the models directory exists and can be
    listed, and [main.py] finds models in it, both versions return the same
    set; when the directory is missing, cannot be listed or holds no model,
    the Streamlit version returns [small] alone. *)
Theorem X20_whisper_choice_never_empty (exists_dir : bool)
    (listdir : outcome (list str)) :
  let offered :=
    StreamlitDiscovery.get_available_whisper_models exists_dir listdir in
  offered <> ∅
  /\ (forall found,
        exists_dir = true ->
        MainDiscovery.get_available_whisper_models listdir = Return found ->
        found <> ∅ -> offered = found)
  /\ (exists_dir = false
      \/ (exists e, listdir = Raise e)
      \/ MainDiscovery.get_available_whisper_models listdir = Return ∅ ->
      offered = {[ lit "small" ]}).
Proof.
  unfold StreamlitDiscovery.get_available_whisper_models,
    MainDiscovery.get_available_whisper_models.
  assert (forall (x : str) l, list_to_set (C := gset str) (x :: l) <> ∅)
    as Hcons by (intros x l; cbn [list_to_set]; set_solver).
  assert (({[ lit "small" ]} : gset str) <> ∅) as Hsmall by set_solver.
  cbv zeta. split; [|split].
  - destruct exists_dir; [|done].
    destruct listdir as [listing|e]; [|done].
    destruct (whisper_models_of listing); [done|apply Hcons].
  - intros found -> Hfound Hne.
    destruct listdir as [listing|e]; [|done].
    injection Hfound as <-.
    by destruct (whisper_models_of listing).
  - intros [->|[[e ->]|Hnone]]; [done|by destruct exists_dir|].
    destruct exists_dir; [|done].
    destruct listdir as [listing|e]; [|done].
    injection Hnone as Hnone.
    destruct (whisper_models_of listing) as [|x l]; [done|].
    by destruct (Hcons x l).
Qed.

(** ** The models offered for summarisation *)

Lemma subscript_raises v key e :
  subscript v key = Raised e -> e = KeyError key \/ e = Exn TypeError.
Proof.
  destruct v; cbn [subscript]; try (intros [= <-]; by right).
  destruct (has_key _ _); [done|]. intros [= <-]. by left.
Qed.

Lemma iterate_raises v e : iterate v = Raised e -> e = Exn TypeError.
Proof. destruct v; cbn [iterate]; by intros [= <-]. Qed.

Lemma model_names_raises models e :
  model_names models = Raised e ->
  e = KeyError (lit "model") \/ e = Exn TypeError.
Proof.
  induction models as [|model models IH]; cbn [model_names]; [done|].
  destruct (subscript model (lit "model")) as [name|e'] eqn:Hname.
  - destruct (model_names models) as [names|e'']; [done|].
    intros [= <-]. by apply IH.
  - intros [= <-]. by apply subscript_raises in Hname.
Qed.

Lemma model_names_values models :
  Forall (fun model => exists name, subscript model (lit "model") = Value name)
    models ->
  exists names,
    model_names models = Value names
    /\ Forall2 (fun model name => subscript model (lit "model") = Value name)
         models names.
Proof.
  induction 1 as [|model models [name Hname] _ (names & Hnames & Hall)].
  - exists []. split; [reflexivity|constructor].
  - exists (name :: names). cbn [model_names]. rewrite Hname, Hnames.
    split; [reflexivity|by constructor].
Qed.

(** X21.  When the server does not answer the request for its models,
    answers with a status other than 200, or reading the body raises a
    [RequestException], [get_available_models] returns one name, and that
    name is the one [summarize_with_model] tests for: selected as the model,
    it makes both versions return the notice that the service is unavailable
    without sending anything. *)
Theorem X21_fallback_name_is_sentinel (answer : get_result) :
  (forall r, answer = Answered r ->
     tags_status_code r <> 200%Z
     \/ exists e, tags_json r = Raise (RequestException e)) ->
  exists name,
    get_available_models answer = Value [PyStr name]
    /\ forall (h : host) (context text : str) (w : world),
         Main.summarize_with_model h name context text w
         = (Return (Main.unavailable_message context text), w)
         /\ Streamlit.summarize_with_model h name context text w
            = (Return (Streamlit.unavailable_message context text), w).
Proof.
  intros Hanswer. exists (lit "ollama-not-available"). split; [|done].
  destruct answer as [r|e]; [|reflexivity].
  cbn [get_available_models].
  destruct (Hanswer r eq_refl) as [Hstatus|[e Hjson]].
  - apply Z.eqb_neq in Hstatus. by rewrite Hstatus.
  - rewrite Hjson. by destruct (tags_status_code r =? 200)%Z.
Qed.

Lemma X21_fallback_name_is_sentinel_witness :
  exists name,
    get_available_models
      (Answered {| tags_status_code := 503; tags_json := Return PyNone;
                   tags_text := lit "Service Unavailable" |})
    = Value [PyStr name]
    /\ forall (h : host) (context text : str) (w : world),
         Main.summarize_with_model h name context text w
         = (Return (Main.unavailable_message context text), w)
         /\ Streamlit.summarize_with_model h name context text w
            = (Return (Streamlit.unavailable_message context text), w).
Proof.
  apply (X21_fallback_name_is_sentinel
           (Answered {| tags_status_code := 503; tags_json := Return PyNone;
                        tags_text := lit "Service Unavailable" |})).
  intros r [= <-]. left. discriminate.
Defined.

(** X22.  When the server answers 200 with a body whose [models] can be
    iterated and every entry of it has a [model], [get_available_models]
    returns the [model] of each entry, one name per entry and in the order
    of the entries. *)
Theorem X22_model_names_in_order (r : tags_response) (body models : pyval)
    (entries : list pyval) :
  tags_status_code r = 200%Z ->
  tags_json r = Return body ->
  subscript body (lit "models") = Value models ->
  iterate models = Value entries ->
  Forall (fun model => exists name, subscript model (lit "model") = Value name)
    entries ->
  exists names,
    get_available_models (Answered r) = Value names
    /\ Forall2 (fun model name => subscript model (lit "model") = Value name)
         entries names.
Proof.
  intros Hstatus Hjson Hmodels Hentries Hall.
  cbn [get_available_models].
  rewrite Hstatus, Hjson, Hmodels, Hentries. cbn [Z.eqb Pos.eqb].
  by apply model_names_values.
Qed.

Lemma X22_model_names_in_order_witness :
  exists names,
    get_available_models
      (Answered
         {| tags_status_code := 200;
            tags_json :=
              match json.loads
                      (qq "{'models':[{'name':'a','model':'llama3:8b'},{'model':'phi3'}]}")
              with
              | Some body => Return body
              | None => Raise JSONDecodeError
              end;
            tags_text := [] |})
    = Value names
    /\ Forall2 (fun model name => subscript model (lit "model") = Value name)
         [PyDict [(lit "name", PyStr (lit "a"));
                  (lit "model", PyStr (lit "llama3:8b"))];
          PyDict [(lit "model", PyStr (lit "phi3"))]]
         names.
Proof.
  apply (X22_model_names_in_order _
           (PyDict
              [(lit "models",
                PyList
                  [PyDict [(lit "name", PyStr (lit "a"));
                           (lit "model", PyStr (lit "llama3:8b"))];
                   PyDict [(lit "model", PyStr (lit "phi3"))]])])
           (PyList
              [PyDict [(lit "name", PyStr (lit "a"));
                       (lit "model", PyStr (lit "llama3:8b"))];
               PyDict [(lit "model", PyStr (lit "phi3"))]])).
  - reflexivity.
  - vm_compute. reflexivity.
  - vm_compute. reflexivity.
  - reflexivity.
  - repeat constructor; eexists; vm_compute; reflexivity.
Defined.

(** X23.  [get_available_models] handles only [RequestException].  It
    raises only when the server answered 200, and then what it raises is
    the exception of reading the body, when that is not a
    [RequestException], or the [KeyError] of a body without [models] or of
    an entry without [model], or the [TypeError] of a body, a [models] or an
    entry of the wrong kind. *)
Theorem X23_discovery_raises (answer : get_result) (e : raised) :
  get_available_models answer = Raised e ->
  exists r,
    answer = Answered r
    /\ tags_status_code r = 200%Z
    /\ (e = KeyError (lit "models")
        \/ e = KeyError (lit "model")
        \/ e = Exn TypeError
        \/ exists e', tags_json r = Raise e' /\ e = Exn e'
                      /\ forall cause, e' <> RequestException cause).
Proof.
  destruct answer as [r|cause]; [|done]. cbn [get_available_models].
  destruct (Z.eqb_spec (tags_status_code r) 200) as [Hstatus|_]; [|done].
  intros Hraised. exists r. split; [done|]. split; [done|].
  destruct (tags_json r) as [body|e'] eqn:Hjson.
  - destruct (subscript body (lit "models")) as [models|e1] eqn:Hmodels.
    + destruct (iterate models) as [entries|e2] eqn:Hentries.
      * apply model_names_raises in Hraised. tauto.
      * injection Hraised as <-. apply iterate_raises in Hentries. tauto.
    + injection Hraised as <-. apply subscript_raises in Hmodels. tauto.
  - do 3 right. exists e'.
    destruct e'; try (injection Hraised as <-; by repeat split).
    discriminate.
Qed.

Lemma X23_discovery_raises_witness :
  exists r,
    Answered {| tags_status_code := 200;
                tags_json := Return (PyDict [(lit "error", PyStr (lit "x"))]);
                tags_text := qq "{'error':'x'}" |}
    = Answered r
    /\ tags_status_code r = 200%Z
    /\ (KeyError (lit "models") = KeyError (lit "models")
        \/ KeyError (lit "models") = KeyError (lit "model")
        \/ KeyError (lit "models") = Exn TypeError
        \/ exists e', tags_json r = Raise e'
                      /\ KeyError (lit "models") = Exn e'
                      /\ forall cause, e' <> RequestException cause).
Proof.
  apply (X23_discovery_raises
           (Answered {| tags_status_code := 200;
                        tags_json :=
                          Return (PyDict [(lit "error", PyStr (lit "x"))]);
                        tags_text := qq "{'error':'x'}" |})
           (KeyError (lit "models"))).
  reflexivity.
Defined.

(** ** Exceptions of the summarisation inside the pipelines *)

(** X24.  In [main.py] the temporaries are removed after the summarisation,
    with no [finally]: when [summarize_with_model] raises (a frame that is
    not UTF-8, not an object, or with a fragment that is not text), the
    exception leaves [gradio_app], and the normalised audio, [output.txt]
    and [transcript.txt] all stay on disk. *)
Theorem X24_summary_error_skips_cleanup (h : host)
    (audio_file_path context whisper_model llm_model : str) (w : world)
    (wav stdout : str) (e : exn) :
  ffmpeg h audio_file_path (converted_path audio_file_path) = (0%Z, Some wav) ->
  whisper_cli h (model_file whisper_model) (converted_path audio_file_path)
  = (0%Z, stdout) ->
  fst (Main.summarize_with_model h llm_model context stdout w) = Raise e ->
  let run :=
    Main.gradio_app h audio_file_path context whisper_model llm_model w in
  fst run = Raise e
  /\ files (snd run) !! converted_path audio_file_path = Some wav
  /\ files (snd run) !! lit "output.txt" = Some stdout
  /\ files (snd run) !! lit "transcript.txt" = Some stdout.
Proof.
  intros Hff Hwh Hsum run. unfold run, Main.gradio_app. clear run.
  pose proof (main_success_result h audio_file_path context whisper_model
                llm_model w wav stdout Hff Hwh) as Hres.
  rewrite Hsum in Hres.
  destruct (Main.translate_and_summarize h audio_file_path context
              whisper_model llm_model w) as [o after] eqn:Hrun.
  cbn [fst snd] in *. subst o. split; [done|].
  unfold Main.translate_and_summarize in Hrun.
  unfold bind at 1 in Hrun. rewrite (main_preprocess_eq _ _ _ _ _ Hff) in Hrun.
  cbn [Z.eqb] in Hrun.
  unfold bind at 1 in Hrun. rewrite (whisper_run_eq _ _ _ _ _ _ Hwh) in Hrun.
  cbn [Z.eqb] in Hrun.
  unfold bind at 1, read_file in Hrun. cbn [files ran ffmpeg_files] in Hrun.
  rewrite lookup_insert_eq in Hrun.
  unfold bind at 1, write_file in Hrun. cbn [files ran set_files] in Hrun.
  unfold bind at 1 in Hrun.
  pose proof (converted_path_not_output audio_file_path) as Hwo.
  pose proof (converted_path_not_transcript audio_file_path) as Hwt.
  pose proof output_not_transcript as Hot.
  match type of Hrun with
  | context [Main.summarize_with_model h llm_model context stdout ?W] =>
      pose proof (main_summarize_world h llm_model context stdout W)
        as [Hfiles _];
      destruct (Main.summarize_with_model h llm_model context stdout W)
        as [[summary|e'] w4]
  end; cbn [snd files set_files] in Hfiles.
  - unfold bind, os_remove, ret in Hrun. rewrite Hfiles in Hrun.
    rewrite lookup_insert_ne, lookup_insert_ne, lookup_insert_eq in Hrun by done.
    cbn [files set_files] in Hrun.
    rewrite lookup_delete_ne, lookup_insert_ne, lookup_insert_eq in Hrun by done.
    discriminate.
  - injection Hrun as _ <-. rewrite Hfiles.
    split; [|split].
    + by rewrite lookup_insert_ne, lookup_insert_ne, lookup_insert_eq.
    + by rewrite lookup_insert_ne, lookup_insert_eq.
    + by rewrite lookup_insert_eq.
Qed.

Lemma X24_summary_error_skips_cleanup_witness :
  let run :=
    Main.gradio_app host_garbled (lit "/tmp/a.mp3") [] (lit "small")
      (lit "llama3") empty_world in
  fst run = Raise UnicodeDecodeError
  /\ files (snd run) !! converted_path (lit "/tmp/a.mp3") = Some (lit "RIFF")
  /\ files (snd run) !! lit "output.txt" = Some (lit "hello world")
  /\ files (snd run) !! lit "transcript.txt" = Some (lit "hello world").
Proof.
  apply (X24_summary_error_skips_cleanup host_garbled (lit "/tmp/a.mp3") []
           (lit "small") (lit "llama3") empty_world (lit "RIFF")
           (lit "hello world") UnicodeDecodeError).
  - reflexivity.
  - reflexivity.
  - vm_compute. reflexivity.
Defined.

(** X25.  In [main] of [streamlit_app.py] the clean-up comes after the
    summarisation as well: when [summarize_with_model] raises, the exception
    leaves [main], and the saved upload and [transcript.txt] stay on disk. *)
Theorem X25_streamlit_summary_error (h : host) (data tmp_file_path : str)
    (whisper_model llm_model context : str) (w : world)
    (wav : str) (c : N) (stdout : str) (e : exn) :
  tmp_file_path <> lit "output.txt" ->
  tmp_file_path <> lit "transcript.txt" ->
  ffmpeg h tmp_file_path (converted_path tmp_file_path) = (0%Z, Some wav) ->
  whisper_cli h (model_file whisper_model) (converted_path tmp_file_path)
  = (0%Z, c :: stdout) ->
  fst (Streamlit.summarize_with_model h llm_model context (c :: stdout) w)
  = Raise e ->
  let run :=
    Streamlit.main h (Some data) tmp_file_path true whisper_model llm_model
      context w in
  fst run = Raise e
  /\ files (snd run) !! tmp_file_path = Some data
  /\ files (snd run) !! lit "transcript.txt" = Some (c :: stdout).
Proof.
  intros Htmp Htmp' Hff Hwh Hsum run. unfold run. clear run.
  destruct (streamlit_success_run h tmp_file_path whisper_model
              (uploaded tmp_file_path data w) _ _ Hff Hwh) as [Ht _].
  destruct (streamlit_main_shown h data tmp_file_path whisper_model llm_model
              context w c stdout Ht) as [Hres _].
  rewrite Hsum in Hres.
  destruct (Streamlit.main h (Some data) tmp_file_path true whisper_model
              llm_model context w) as [o after] eqn:Hrun.
  cbn [fst snd] in *. subst o. split; [done|].
  unfold Streamlit.main in Hrun.
  unfold bind at 1, write_file in Hrun. unfold bind at 1 in Hrun.
  fold (uploaded tmp_file_path data w) in Hrun.
  pose proof (streamlit_transcribe_other h tmp_file_path whisper_model
                (uploaded tmp_file_path data w) tmp_file_path
                (not_eq_sym (converted_path_fresh tmp_file_path)) Htmp)
    as Hkeep.
  destruct (Streamlit.transcribe_audio h tmp_file_path whisper_model
              (uploaded tmp_file_path data w)) as [o1 w1].
  cbn [fst snd] in Ht, Hkeep. subst o1.
  unfold uploaded in Hkeep. cbn [files set_files] in Hkeep.
  rewrite lookup_insert_eq in Hkeep.
  unfold bind at 1, write_file in Hrun. unfold bind at 1 in Hrun.
  match type of Hrun with
  | context [Streamlit.summarize_with_model h llm_model context (c :: stdout) ?W] =>
      pose proof (streamlit_summarize_world h llm_model context (c :: stdout) W)
        as [Hfiles _];
      destruct (Streamlit.summarize_with_model h llm_model context
                  (c :: stdout) W) as [[s|e'] w3]
  end; cbn [snd files set_files] in Hfiles.
  - unfold bind at 1 in Hrun.
    match type of Hrun with
    | context [try_except ?body ?handler w3] =>
        destruct (try_except body handler w3) as [[[]|?] ?] eqn:Hclean
    end.
    + discriminate.
    + exfalso. revert Hclean.
      unfold try_except, bind, os_remove, os_path_exists, ret.
      destruct (files w3 !! tmp_file_path); [|done].
      cbn [files set_files].
      destruct (bool_decide _); [|done].
      cbn [files set_files].
      by destruct (delete tmp_file_path (files w3) !! lit "transcript.txt").
  - injection Hrun as _ <-. rewrite Hfiles. split.
    + by rewrite lookup_insert_ne.
    + by rewrite lookup_insert_eq.
Qed.

Lemma X25_streamlit_summary_error_witness :
  let run :=
    Streamlit.main host_garbled (Some (lit "ID3")) (lit "/tmp/a.mp3") true
      (lit "small") (lit "llama3") [] empty_world in
  fst run = Raise UnicodeDecodeError
  /\ files (snd run) !! lit "/tmp/a.mp3" = Some (lit "ID3")
  /\ files (snd run) !! lit "transcript.txt" = Some (104%N :: lit "ello world").
Proof.
  apply (X25_streamlit_summary_error host_garbled (lit "ID3") (lit "/tmp/a.mp3")
           (lit "small") (lit "llama3") [] empty_world (lit "RIFF") 104%N
           (lit "ello world") UnicodeDecodeError).
  - discriminate.
  - discriminate.
  - reflexivity.
  - reflexivity.
  - vm_compute. reflexivity.
Defined.
